(** * Ligand-identification scripts: a shallow embedding and its properties

    The repository is a set of batch scripts that normalise a structure
    identifier, download the structure file, walk its residues and choose
    the bound ligand.  This development embeds

    - the text operations the scripts rely on ([str.strip], [str.upper],
      [str.replace], the two patterns that extract the code) and the
      paths of [pathlib],
    - the residue walk of [ache_only_extract.py] (the same lines appear in
      [bd2_only_exctact.py], [ligand_mapping_full.py],
      [extract_ligands_split_dual.py], [ligand_residue_test.py]),
    - the line scanner of [realligand_mapping.py],
    - the per-row drivers with their [try]/[except] blocks, the output
      folder and the table they write, and
    - the download cache of [data/final_ligand_extraction.py].

    A Python [str] is a Rocq [string]; a character is its code point, and
    the model covers code points below 256.  The character classes are the
    ones CPython uses for [str]: [str.isspace] and the Unicode [\w]. *)

From Stdlib Require Import NArith Ascii String.
From stdpp Require Import gmap strings list sorting.

#[local] Set Warnings "-clear-no-such-hyp".

(** ** Characters and strings *)

Module Text.
Local Open Scope N_scope.

Definition code (c : ascii) : N := N_of_ascii c.

Definition between (lo hi : N) (c : ascii) : bool :=
  (lo <=? code c) && (code c <=? hi).

(** [str.isspace] on one character: TAB..CR, FS..US, SPACE, NEL, NBSP. *)
Definition isspace (c : ascii) : bool :=
  between 9 13 c || between 28 32 c || (code c =? 133) || (code c =? 160).

Definition is_digit (c : ascii) : bool := between 48 57 c.
Definition is_lower (c : ascii) : bool := between 97 122 c.
Definition is_upper (c : ascii) : bool := between 65 90 c.

(** The letters a..z, A..Z and the digits: the characters of a structure
    code. *)
Definition is_alnum (c : ascii) : bool := is_digit c || is_lower c || is_upper c.

(** The class [\w] of a [str] pattern: alphanumeric characters and the
    underscore.  Above 127 these are the letters, digits and fractions of
    the Latin-1 block. *)
Definition is_word (c : ascii) : bool :=
  is_alnum c || (code c =? 95)
  || (code c =? 170) || (code c =? 178) || (code c =? 179) || (code c =? 181)
  || (code c =? 185) || (code c =? 186) || between 188 190 c
  || between 192 214 c || between 216 246 c || between 248 255 c.

(** [str.upper] and [str.lower] on one character.  Besides a..z the
    Latin-1 block has the small letters 224 to 246 and 248 to 254, whose
    capitals lie 32 below them, and three more: the sharp s (223), whose
    capital is the two letters SS, and the micro sign (181) and the y with
    diaeresis (255), whose capitals are the code points 924 and 376.  These
    two capitals are outside the range of the model: [upper] leaves the
    two characters as they are, and what is stated about an upper-cased
    text is stated for texts without them (see [capital_in_range]).
    [str.lower] stays inside the block. *)
Definition upper_char (c : ascii) : ascii :=
  if is_lower c || between 224 246 c || between 248 254 c
  then ascii_of_N (code c - 32) else c.

Fixpoint upper (s : string) : string :=
  match s with
  | EmptyString => EmptyString
  | String c r =>
      if code c =? 223 then String "S" (String "S" (upper r))
      else String (upper_char c) (upper r)
  end.

(** The characters whose capital is a text of the model. *)
Definition capital_in_range (c : ascii) : bool :=
  negb ((code c =? 181) || (code c =? 255)).

Definition lower_char (c : ascii) : ascii :=
  if is_upper c || between 192 214 c || between 216 222 c
  then ascii_of_N (code c + 32) else c.

Fixpoint lower (s : string) : string :=
  match s with
  | EmptyString => EmptyString
  | String c r => String (lower_char c) (lower r)
  end.

Fixpoint lstrip (s : string) : string :=
  match s with
  | EmptyString => EmptyString
  | String c r => if isspace c then lstrip r else s
  end.

Fixpoint rstrip (s : string) : string :=
  match s with
  | EmptyString => EmptyString
  | String c r =>
      match rstrip r with
      | EmptyString => if isspace c then EmptyString else String c EmptyString
      | r' => String c r'
      end
  end.

(** [s.strip()] *)
Definition strip (s : string) : string := rstrip (lstrip s).

Definition nbsp : ascii := ascii_of_N 160.

(** [s.replace("\xa0", "")] *)
Fixpoint remove_nbsp (s : string) : string :=
  match s with
  | EmptyString => EmptyString
  | String c r => if (code c =? 160) then remove_nbsp r else String c (remove_nbsp r)
  end.

Fixpoint all_chars (p : ascii -> bool) (s : string) : bool :=
  match s with
  | EmptyString => true
  | String c r => p c && all_chars p r
  end.

(** [s.startswith(p)] *)
Fixpoint startswith (p s : string) : bool :=
  match p, s with
  | EmptyString, _ => true
  | String a p', String b s' => if Ascii.eqb a b then startswith p' s' else false
  | String _ _, EmptyString => false
  end.

(** [p in s] for strings *)
Fixpoint contains (p s : string) : bool :=
  startswith p s ||
  match s with
  | EmptyString => false
  | String _ r => contains p r
  end.

Fixpoint drop (n : nat) (s : string) : string :=
  match n, s with
  | O, _ => s
  | S n', String _ r => drop n' r
  | S _, EmptyString => EmptyString
  end.

Fixpoint take (n : nat) (s : string) : string :=
  match n, s with
  | O, _ => EmptyString
  | S n', String c r => String c (take n' r)
  | S _, EmptyString => EmptyString
  end.

(** [s[i:j]] for [0 <= i <= j] *)
Definition slice (i j : nat) (s : string) : string := take (j - i) (drop i s).

(** [sep.join(l)] *)
Fixpoint join (sep : string) (l : list string) : string :=
  match l with
  | [] => EmptyString
  | [x] => x
  | x :: r => x +:+ sep +:+ join sep r
  end.

(** [sorted] on a set of strings: ascending code-point order. *)
Definition sorted (s : gset string) : list string :=
  merge_sort String.le (elements s).

End Text.

(** ** Paths

    [pathlib.PurePosixPath]: a path is its root (the empty text, one slash
    or two) and the parts below it.  Parsing a text drops empty parts and
    single dots and keeps double dots; [self / other] appends the parts of
    [other], unless [other] has a root, in which case it replaces [self]. *)

Module Path.
Import Text.
Local Open Scope N_scope.

Record PurePath := mkPath { root : string; parts : list string }.

Definition is_sep (c : ascii) : bool := code c =? 47.

(** [s.split("/")] *)
Fixpoint split (s : string) : list string :=
  match s with
  | EmptyString => [EmptyString]
  | String c r =>
      if is_sep c then EmptyString :: split r
      else match split r with
           | x :: l => String c x :: l
           | [] => [String c EmptyString]
           end
  end.

(** The root of a text and what follows it: exactly two leading slashes
    are a root of their own, one slash or more than two are the root of
    one slash. *)
Definition splitroot (p : string) : string * string :=
  match p with
  | String a r =>
      if is_sep a then
        match r with
        | String b r' =>
            if is_sep b then
              match r' with
              | String c _ => if is_sep c then ("/", r) else ("//", r')
              | EmptyString => ("//", r')
              end
            else ("/", r)
        | EmptyString => ("/", r)
        end
      else ("", p)
  | EmptyString => ("", p)
  end.

Definition is_part (x : string) : bool :=
  negb (String.eqb x "") && negb (String.eqb x ".").

(** [PurePosixPath(p)] *)
Definition parse (p : string) : PurePath :=
  let (r, rel) := splitroot p in
  mkPath r (List.filter is_part (split rel)).

(** [self / other] for a text [other] *)
Definition joinpath (self : PurePath) (other : string) : PurePath :=
  let o := parse other in
  if String.eqb (root o) "" then mkPath (root self) (parts self ++ parts o)
  else o.

(** [path.parent] *)
Definition parent (p : PurePath) : PurePath :=
  mkPath (root p) (removelast (parts p)).

(** [str(path)] *)
Definition str (p : PurePath) : string :=
  match root p, parts p with
  | EmptyString, [] => "."
  | r, l => r +:+ join "/" l
  end.

(** A text without slash. *)
Definition no_sep (s : string) : bool := all_chars (fun c => negb (is_sep c)) s.

End Path.

(** ** Regular expressions of the identifier clean-up *)

Module Regex.
Import Text.
Local Open Scope N_scope.

(** [$] outside MULTILINE mode: the end of the string, or just before a
    newline that ends the string. *)
Definition at_end (s : string) : bool :=
  match s with
  | EmptyString => true
  | String c EmptyString => code c =? 10
  | _ => false
  end.

(** Four characters of the class [cls] starting here, followed by [rest];
    the group is the four characters. *)
Definition four (cls : ascii -> bool) (rest : string -> bool) (s : string)
  : option string :=
  match s with
  | String a (String b (String c (String d r))) =>
      if cls a && cls b && cls c && cls d && rest r
      then Some (String a (String b (String c (String d EmptyString))))
      else None
  | _ => None
  end.

(** [re.search]: the match at the leftmost start position. *)
Fixpoint search (m : string -> option string) (s : string) : option string :=
  match m s with
  | Some g => Some g
  | None =>
      match s with
      | EmptyString => None
      | String _ r => search m r
      end
  end.

(** [(\w{4})$] *)
Definition word4_end : string -> option string := search (four is_word at_end).
(** [(\w{4})] *)
Definition word4 : string -> option string := search (four is_word (fun _ => true)).
End Regex.


(** ** The parsed structure

    [PDBParser.get_structure] returns a structure that iterates over its
    models, a model over its chains, a chain over its residues.  A residue
    carries its name, its id [(hetfield, resseq, icode)] and its atoms; the
    hetfield is one space for a standard polymer residue and is different
    from it for every heteroatom group. *)

Module Bio.

Record Atom := mkAtom { atom_name : string; element : string }.

Record Residue := mkResidue {
  get_resname : string;
  id : string * Z * string;
  atoms : list Atom
}.

Definition hetfield (r : Residue) : string := (id r).1.1.

Definition Chain := list Residue.
Definition Model := list Chain.
Definition Structure := list Model.

(** The residues in iteration order. *)
Definition residues (s : Structure) : list Residue := concat (concat s).

End Bio.

(** ** [collections.Counter]

    A [Counter] is a [dict]: it iterates in insertion order, a missing key
    reads as zero, and [c[k] += 1] keeps the position of a key that is
    already there. *)

Module Counter.

Definition t := list (string * nat).

(** [c[k]] *)
Fixpoint get (c : t) (k : string) : nat :=
  match c with
  | [] => 0
  | (k', n) :: r => if String.eqb k' k then n else get r k
  end.

(** [c[k] += 1] *)
Fixpoint incr (k : string) (c : t) : t :=
  match c with
  | [] => [(k, 1)]
  | (k', n) :: r =>
      if String.eqb k' k then (k', S n) :: r else (k', n) :: incr k r
  end.

(** [max(it, key=itemgetter(1))] with a first item in hand: a later item
    replaces the current one only when its count is strictly greater. *)
Fixpoint max_from (best : string * nat) (l : t) : string * nat :=
  match l with
  | [] => best
  | x :: r => if best.2 <? x.2 then max_from x r else max_from best r
  end.

(** [c.most_common(1)], which is [heapq.nlargest(1, c.items(), key=...)]:
    the empty list for an empty counter, else the one maximal item. *)
Definition most_common1 (c : t) : list (string * nat) :=
  match c with
  | [] => []
  | x :: r => [max_from x r]
  end.

End Counter.

(** ** The residue walk and the choice of the ligand
    ([ache_only_extract.py], lines 36 and 63 to 78) *)

Module Extract.
Import Text Bio.

Definition SOLVENTS : gset string :=
  {[ "HOH"; "WAT"; "SO4"; "PO4"; "CL"; "NA"; "MG"; "ZN"; "K"; "CA" ]}.

Record Walk := mkWalk {
  ligands : list string;
  all_residues : gset string;
  residue_counts : Counter.t
}.

Definition start : Walk := mkWalk [] ∅ [].

(** The body of the innermost loop. *)
Definition visit (w : Walk) (residue : Residue) : Walk :=
  let resname := strip (get_resname residue) in
  let seen := all_residues w ∪ {[ resname ]} in
  if negb (String.eqb (hetfield residue) " ") then
    if bool_decide (resname ∉ SOLVENTS) then
      mkWalk (ligands w ++ [resname]) seen (Counter.incr resname (residue_counts w))
    else mkWalk (ligands w) seen (residue_counts w)
  else mkWalk (ligands w) seen (residue_counts w).

Definition walk_chain (w : Walk) (chain : Chain) : Walk := foldl visit w chain.
Definition walk_model (w : Walk) (model : Model) : Walk := foldl walk_chain w model.
Definition walk (structure : Structure) : Walk := foldl walk_model start structure.

(** [residue_counts.most_common(1)[0][0] if residue_counts else "None"].
    For a counter that is not empty [most_common(1)] has one item, so the
    inner empty case, where Python would raise, is never reached. *)
Definition most_common_ligand (w : Walk) : string :=
  match residue_counts w with
  | [] => "None"
  | _ :: _ =>
      match Counter.most_common1 (residue_counts w) with
      | item :: _ => item.1
      | [] => "None"
      end
  end.

(** [set(ligands)] *)
Definition ligand_candidates (w : Walk) : gset string := list_to_set (ligands w).

(** The three columns a row of the output table is built from. *)
Record Columns := mkColumns {
  col_ligand : string;
  col_candidates : string;
  col_residues : string
}.

Definition columns (w : Walk) : Columns :=
  mkColumns
    (most_common_ligand w)
    (match ligands w with
     | [] => "None"
     | _ :: _ => join ", " (sorted (ligand_candidates w))
     end)
    (join ", " (sorted (all_residues w))).

End Extract.

(** ** The line scanner of [realligand_mapping.py] (lines 30 and 40 to 54) *)

Module RealLigand.
Import Text.

Definition exclude_resnames : gset string :=
  {[ "HOH"; "SO4"; "PO4"; "CL"; "NA"; "MG"; "CA"; "ZN"; "K" ]}.

(** The body of [for line in f]. *)
Definition scan_line (ligands : gset string) (line : string) : gset string :=
  if startswith "HETATM" line then
    let resname := strip (slice 17 20 line) in
    if negb (String.eqb resname "")
       && bool_decide (upper resname ∉ exclude_resnames)
    then ligands ∪ {[ resname ]}
    else ligands
  else ligands.

Definition scan (lines : list string) : gset string := foldl scan_line ∅ lines.

(** The value stored in the column [Ligand_Resname]; [None] is the
    placeholder the column starts with. *)
Definition Ligand_Resname (ligands : gset string) : option string :=
  if decide (size ligands = 1) then head (elements ligands)
  else if decide (1 < size ligands) then Some (join ";" (sorted ligands))
  else None.

End RealLigand.

(** ** Effects: files, network requests, console, exceptions *)

Module Py.

Inductive outcome (A : Type) : Type :=
| Return (a : A)
| Raise (e : string).
Arguments Return {A} a.
Arguments Raise {A} e.

Record World := mkWorld {
  files : gmap string string;
  requests : list string;
  stdout : list string
}.

Definition M (A : Type) : Type := World -> outcome A * World.

Definition ret {A} (a : A) : M A := fun w => (Return a, w).
Definition raise {A} (e : string) : M A := fun w => (Raise e, w).
Definition bind {A B} (m : M A) (k : A -> M B) : M B :=
  fun w => match m w with
           | (Return a, w') => k a w'
           | (Raise e, w') => (Raise e, w')
           end.
Definition lift {A} (o : outcome A) : M A := fun w => (o, w).

(** [try: body / except Exception as e: handler] *)
Definition try_except {A} (body : M A) (handler : string -> M A) : M A :=
  fun w => match body w with
           | (Return a, w') => (Return a, w')
           | (Raise e, w') => handler e w'
           end.

Definition print (line : string) : M unit :=
  fun w => (Return tt, mkWorld (files w) (requests w) (stdout w ++ [line])).

(** [path.exists()] *)
Definition path_exists (path : string) : M bool :=
  fun w => (Return (bool_decide (is_Some (files w !! path))), w).

(** [path.write_text(text)] *)
Definition write_text (path text : string) : M unit :=
  fun w => (Return tt, mkWorld (<[path := text]> (files w)) (requests w) (stdout w)).

(** [path.mkdir(parents=True, exist_ok=True)] for a relative path of one
    part.  [files] holds the regular files, each under the text of its
    path; a folder has no text and is not recorded, so the call changes
    nothing where it succeeds.  It fails where the path is a regular
    file. *)
Definition mkdir (path : string) : M unit :=
  fun w => if bool_decide (is_Some (files w !! path))
           then (Raise ("[Errno 17] File exists: '" +:+ path +:+ "'"), w)
           else (Return tt, w).

#[global] Instance M_ret : MRet M := @ret.
#[global] Instance M_bind : MBind M := fun A B k m => bind m k.

End Py.

(** ** What lies outside the repository

    [remote url] is what [requests.get(url)] gives: a response, or a
    connection error.  [http_error] is the message of the [HTTPError] that
    [raise_for_status] raises, [get_structure] is the structure parser. *)

Module Http.
Import Text Bio Py.

Record Response := mkResponse { status_code : nat; text : string }.

Record Outside := mkOutside {
  remote : string -> outcome Response;
  http_error : Response -> string;
  get_structure : string -> string -> outcome Structure
}.

(** [requests.get(url)] *)
Definition requests_get (env : Outside) (url : string) : M Response :=
  fun w => (remote env url, mkWorld (files w) (requests w ++ [url]) (stdout w)).

(** [response.raise_for_status()]: an error for the status codes 400 to 599. *)
Definition raise_for_status (env : Outside) (r : Response) : M unit :=
  if bool_decide (400 ≤ status_code r < 600)
  then raise (http_error env r) else ret tt.

(** A cell formatted inside an f-string: a missing value prints as nan. *)
Definition fmt (cell : option string) : string := default "nan" cell.

Definition download_url (pdb_id : string) : string :=
  "https://files.rcsb.org/download/" +:+ pdb_id +:+ ".pdb".

End Http.

(** ** The table rows shared by the extraction scripts *)

Module Table.
Import Text Bio Py Http.

(** A row of the spreadsheet: the cells [Unique_ID] and [PDB ID] as text. *)
Record Input := mkInput { in_unique_id : string; in_pdb_id : string }.

(** A row of the cleaned frame; [PDB_ID] is missing where the pattern
    found nothing. *)
Record Row := mkRow {
  Unique_ID : string;
  PDB_ID_label : string;
  PDB_ID : option string
}.

(** A row of the output table. *)
Record Result := mkResult {
  res_unique_id : string;
  res_label : string;
  res_pdb_id : option string;
  res_ligand : string;
  res_candidates : string;
  res_residues : string
}.

(** The [try] block from the request to the end of the residue walk. *)
Definition fetch_and_walk (env : Outside) (pdb_id : option string) : M Extract.Walk :=
  response ← requests_get env (download_url (fmt pdb_id));
  raise_for_status env response;;
  structure ← lift (get_structure env (fmt pdb_id) (text response));
  ret (Extract.walk structure).

Definition result_of (row : Row) (w : Extract.Walk) : Result :=
  let c := Extract.columns w in
  mkResult (Unique_ID row) (PDB_ID_label row) (PDB_ID row)
    (Extract.col_ligand c) (Extract.col_candidates c) (Extract.col_residues c).

(** The texts a script makes of its table of results at the end:
    [to_csv_text] is what [pd.DataFrame(results).to_csv(index=False)]
    writes, [head_text] is [str] of the first ten rows of the frame, and
    [saved_line] is the line the script prints after the save.  That line
    holds a check mark, which is outside the characters of the model, and
    the absolute path of the file, which depends on the working folder. *)
Record Report := mkReport {
  to_csv_text : list Result -> string;
  saved_line : list Result -> string;
  head_text : list Result -> string
}.

(** [pd.DataFrame(rows).to_csv(path, index=False)] *)
Definition to_csv (pd : Report) (path : string) (rows : list Result) : M unit :=
  write_text path (to_csv_text pd rows).

End Table.

(** ** [ache_only_extract.py] *)

Module AcheOnly.
Import Text Regex Py Http Table.

(** Line 41. *)
Definition clean_label (raw : string) : string := strip (remove_nbsp raw).

(** Line 42. *)
Definition extract_pdb_id (label : string) : option string :=
  strip <$> (upper <$> word4_end label).

Definition load (table : list Input) : list Row :=
  (fun i => mkRow (strip (in_unique_id i)) (clean_label (in_pdb_id i))
              (extract_pdb_id (clean_label (in_pdb_id i)))) <$> table.

Section Loop.
Variable env : Outside.

(** Lines 50 to 91: one turn of the loop. *)
Definition turn (results : list Result) (row : Row) : M (list Result) :=
  try_except
    (w ← fetch_and_walk env (PDB_ID row);
     ret (results ++ [result_of row w]))
    (fun e =>
       print ("Skipping " +:+ fmt (PDB_ID row) +:+ " due to error: " +:+ e);;
       ret results).

Fixpoint loop (results : list Result) (rows : list Row) : M (list Result) :=
  match rows with
  | [] => ret results
  | row :: rest => results' ← turn results row; loop results' rest
  end.

(** Lines 39 to 91: the clean-up of the frame and the loop over its rows. *)
Definition main (table : list Input) : M (list Result) := loop [] (load table).
End Loop.

(** Line 35. *)
Definition OUTPUT_PATH : Path.PurePath := Path.parse "data/ligand_mapping_ache.csv".

Section Script.
Variable env : Outside.
Variable pd : Report.

(** The script from line 39 to its end, for the frame [read_excel] gave:
    the clean-up, the output folder of line 46, the loop, the table
    written on lines 94 and 95 and the three console lines after it. *)
Definition script (table : list Input) : M (list Result) :=
  let df := load table in
  mkdir (Path.str (Path.parent OUTPUT_PATH));;
  results ← loop env [] df;
  to_csv pd (Path.str OUTPUT_PATH) results;;
  print (saved_line pd results);;
  print (String "010" "Preview of first 10 rows (ACHE):");;
  print (head_text pd results);;
  ret results.
End Script.

End AcheOnly.

(** ** [ligand_mapping_full.py] *)

Module MappingFull.
Import Text Regex Py Http Table.

(** Lines 48 and 50.  The columns are called [PBD ID] and [UniqueID] in
    this script; the clean-up is the one of [ache_only_extract.py]. *)
Definition clean_label (raw : string) : string := strip (remove_nbsp raw).
Definition extract_pdb_id (label : string) : option string :=
  strip <$> (upper <$> word4_end label).

Definition load (table : list Input) : list Row :=
  (fun i => mkRow (strip (in_unique_id i)) (clean_label (in_pdb_id i))
              (extract_pdb_id (clean_label (in_pdb_id i)))) <$> table.

(** Lines 100 to 107: the row appended by the [except] block. *)
Definition error_row (row : Row) (e : string) : Result :=
  mkResult (Unique_ID row) (PDB_ID_label row) (PDB_ID row)
    ("Error: " +:+ e) "N/A" "N/A".

Section Loop.
Variable env : Outside.

(** Lines 59 to 107: one turn of the loop. *)
Definition turn (results : list Result) (row : Row) : M (list Result) :=
  try_except
    (w ← fetch_and_walk env (PDB_ID row);
     ret (results ++ [result_of row w]))
    (fun e =>
       print ("Error fetching " +:+ fmt (PDB_ID row) +:+ ": " +:+ e);;
       ret (results ++ [error_row row e])).

Fixpoint loop (results : list Result) (rows : list Row) : M (list Result) :=
  match rows with
  | [] => ret results
  | row :: rest => results' ← turn results row; loop results' rest
  end.

(** Lines 46 to 107: the clean-up of the frame and the loop over its rows. *)
Definition main (table : list Input) : M (list Result) := loop [] (load table).
End Loop.

(** Line 53. *)
Definition output_path : Path.PurePath :=
  Path.joinpath (Path.parse "data") "ligand_mapping_full.csv".

Section Script.
Variable env : Outside.
Variable pd : Report.

(** The script from line 46 to its end, for the frame [read_excel] gave:
    the clean-up, the output folder of line 54, the loop, the table
    written on lines 110 and 111 and the three console lines after it. *)
Definition script (table : list Input) : M (list Result) :=
  let df := load table in
  mkdir (Path.str (Path.parent output_path));;
  results ← loop env [] df;
  to_csv pd (Path.str output_path) results;;
  print (saved_line pd results);;
  print (String "010" "Preview of first 10 rows:");;
  print (head_text pd results);;
  ret results.
End Script.

End MappingFull.

(** ** [extract_ligands_split_dual.py] *)

Module SplitDual.
Import Text Regex Py Http Table.

(** Line 63. *)
Definition extract_pdb_id (label : string) : option string :=
  upper <$> word4 label.

(** Lines 63 and 64: the new column, then [dropna] on it. *)
Definition load (table : list Input) : list Row :=
  filter (fun row => is_Some (PDB_ID row))
    ((fun i => mkRow (in_unique_id i) (in_pdb_id i) (extract_pdb_id (in_pdb_id i)))
       <$> table).

(** Lines 117 to 120. *)
Definition route (acc : list Result * list Result) (r : Result)
  : list Result * list Result :=
  if contains "bd2" (lower (res_unique_id r)) then (acc.1 ++ [r], acc.2)
  else if contains "ache" (lower (res_unique_id r)) then (acc.1, acc.2 ++ [r])
  else acc.

Section Loop.
Variable env : Outside.

(** Lines 70 to 123: one turn of the loop; the accumulator is the pair
    [(bd2_results, ache_results)]. *)
Definition turn (acc : list Result * list Result) (row : Row)
  : M (list Result * list Result) :=
  try_except
    (w ← fetch_and_walk env (PDB_ID row);
     ret (route acc (result_of row w)))
    (fun e =>
       print ("Skipping " +:+ fmt (PDB_ID row) +:+ " due to error: " +:+ e);;
       ret acc).

Fixpoint loop (acc : list Result * list Result) (rows : list Row)
  : M (list Result * list Result) :=
  match rows with
  | [] => ret acc
  | row :: rest => acc' ← turn acc row; loop acc' rest
  end.

(** Lines 63 to 123: the new column, [dropna] and the loop over the rows. *)
Definition main (table : list Input) : M (list Result * list Result) :=
  loop ([], []) (load table).
End Loop.

End SplitDual.

(** ** The download cache of [data/final_ligand_extraction.py]
    (lines 41 to 47 and 77 to 87) *)

Module Cache.
Import Text Py Http.

Definition project_dir : Path.PurePath := Path.parse "/Users/chinazoemeh/HopeMScP".
Definition pdb_download_dir : Path.PurePath :=
  Path.joinpath project_dir "data/pdb_files".

(** Lines 77 and 78, as the text [str(pdb_local_path)] that names the
    file.  A file is named by the text of its path: the file system of the
    model resolves neither double dots nor links. *)
Definition pdb_local_path (pdb_id : string) : string :=
  Path.str (Path.joinpath pdb_download_dir (pdb_id +:+ ".pdb")).

Section Step.
Variable env : Outside.

(** Step 4 of the loop body; the value is the path handed to the
    extraction script ([mol new <path>]).  [write_text] takes the folder
    of the file to exist: for a code without slash it is the download
    folder, which line 53 has made. *)
Definition ensure_pdb (pdb_id : string) : M string :=
  cached ← path_exists (pdb_local_path pdb_id);
  if negb cached then
    print ("Downloading PDB file from: " +:+ download_url pdb_id);;
    response ← requests_get env (download_url pdb_id);
    raise_for_status env response;;
    write_text (pdb_local_path pdb_id) (text response);;
    ret (pdb_local_path pdb_id)
  else
    print ("Using cached PDB file: " +:+ (pdb_id +:+ ".pdb"));;
    ret (pdb_local_path pdb_id).
End Step.

End Cache.

(** ** Scenarios of the specification *)

Module Scenarios.
Import Bio.

Definition atom (n : string) : Atom := mkAtom n "C".
Definition het (name : string) (seq : Z) (n_atoms : nat) : Residue :=
  mkResidue name ("H_" +:+ name, seq, " ") (replicate n_atoms (atom "C1")).
Definition water (seq : Z) : Residue :=
  mkResidue "HOH" ("W", seq, " ") [mkAtom "O" "O"].
Definition amino (name : string) (seq : Z) : Residue :=
  mkResidue name (" ", seq, " ") [atom "N"; atom "CA"; atom "C"; mkAtom "O" "O"].

(** Three waters and one 7QZ group. *)
Definition scenario_A : Structure :=
  [ [ [amino "ALA" 1; het "7QZ" 201 20]; [water 301; water 302; water 303] ] ].

(** Polymer residues and solvent only. *)
Definition scenario_B : Structure :=
  [ [ [amino "GLY" 1; amino "SER" 2; het " CL" 401 1; water 301] ] ].

(** JQ1 twice with thirty atoms each, UNL five times with one atom each. *)
Definition scenario_C : Structure :=
  [ [ [amino "MET" 1; het "JQ1" 201 30; het "UNL" 202 1; het "UNL" 203 1];
      [het "JQ1" 204 30; het "UNL" 205 1; het "UNL" 206 1; het "UNL" 207 1] ] ].

(** Two candidates with the same count; TRS is met first. *)
Definition scenario_tie : Structure :=
  [ [ [het "TRS" 1 8; het "ACT" 2 4; het "ACT" 3 4; het "TRS" 4 8] ] ].

(** No network: every request ends in a connection error. *)
Definition offline : Http.Outside :=
  Http.mkOutside (fun _ => Py.Raise "connection refused")
    (fun _ => "HTTP error") (fun _ _ => Py.Raise "empty file").

(** A repository that holds the entry 4EY7 and answers 404 for the rest. *)
Definition one_entry : Http.Outside :=
  Http.mkOutside
    (fun url =>
       if String.eqb url "https://files.rcsb.org/download/4EY7.pdb"
       then Py.Return (Http.mkResponse 200 "HEADER 4EY7")
       else Py.Return (Http.mkResponse 404 ""))
    (fun r => "404 Client Error: Not Found")
    (fun _ _ => Py.Return scenario_A).

Definition empty_world : Py.World := Py.mkWorld ∅ [] [].

(** A world in which the file of 7RUI is already in the download folder. *)
Definition cached_world : Py.World :=
  Py.mkWorld {[ "/Users/chinazoemeh/HopeMScP/data/pdb_files/7RUI.pdb" := "HEADER 7RUI" ]}
    [] [].

(** A HETATM line whose residue name, in columns 18 to 20, is WAT. *)
Definition wat_line : string :=
  "HETATM 2001  O   WAT A 301      10.000  10.000  10.000  1.00 20.00           O".

(** A world in which the file of 4EY7 is in the download folder, and
    also in the folder [data/pdb_files] of the working folder. *)
Definition cached_4ey7_world : Py.World :=
  Py.mkWorld
    {[ "/Users/chinazoemeh/HopeMScP/data/pdb_files/4EY7.pdb" := "HEADER 4EY7";
       "data/pdb_files/4EY7.pdb" := "HEADER 4EY7" ]}
    [] [].

(** HETATM lines of a TRS group and of an ACT group. *)
Definition trs_line : string :=
  "HETATM 3001  C   TRS A 401      11.000  12.000  13.000  1.00 30.00           C".
Definition act_line : string :=
  "HETATM 3009  C   ACT A 402      14.000  15.000  16.000  1.00 30.00           C".

End Scenarios.

(** * Notions used to state the properties *)

Module Notions.
Import Text Bio Py Http.

(** *** Text *)

Definition starts_with_space (s : string) : bool :=
  match s with
  | EmptyString => false
  | String c _ => isspace c
  end.

Fixpoint ends_with_space (s : string) : bool :=
  match s with
  | EmptyString => false
  | String c r =>
      match r with
      | EmptyString => isspace c
      | String _ _ => ends_with_space r
      end
  end.

(** No white space at either end. *)
Definition bare (s : string) : bool :=
  negb (starts_with_space s) && negb (ends_with_space s).

(** The last four characters, and whether they exist and all lie in a
    class. *)
Definition suffix4 (s : string) : string := drop (String.length s - 4) s.

Definition has_suffix4 (cls : ascii -> bool) (s : string) : bool :=
  bool_decide (4 ≤ String.length s) && all_chars cls (suffix4 s).

(** *** Counters *)

(** The keys in iteration order. *)
Definition keys (c : Counter.t) : list string := c.*1.

(** The counter built by [c[k] += 1] for each [k] of [l], in order. *)
Definition tally (l : list string) : Counter.t :=
  foldl (fun c k => Counter.incr k c) [] l.

(** Number of occurrences of [k] in [l]. *)
Definition occ (k : string) (l : list string) : nat :=
  length (filter (fun x => x = k) l).

(** *** Residues *)

(** The name the loop body works with. *)
Definition name_of (r : Residue) : string := strip (get_resname r).

Definition is_heteroatom (r : Residue) : bool :=
  negb (String.eqb (hetfield r) " ").

(** The residues that reach [residue_counts[resname] += 1]. *)
Definition counted (r : Residue) : bool :=
  is_heteroatom r && bool_decide (name_of r ∉ Extract.SOLVENTS).

Definition candidate_names (rs : list Residue) : list string :=
  name_of <$> filter counted rs.

(** Number of residues of a structure that are heteroatom groups, carry
    the (stripped) name [name], and whose name is not a solvent. *)
Definition occurrences (name : string) (s : Structure) : nat :=
  length (filter (fun r => is_heteroatom r = true
                           /\ name_of r = name
                           /\ name ∉ Extract.SOLVENTS) (residues s)).

(** The same residue without its atoms, and with its name stripped. *)
Definition forget_atoms (r : Residue) : Residue :=
  mkResidue (get_resname r) (id r) [].
Definition stripped (r : Residue) : Residue :=
  mkResidue (strip (get_resname r)) (id r) (atoms r).

Definition map_residues (f : Residue -> Residue) (s : Structure) : Structure :=
  List.map (List.map (List.map f)) s.

(** *** Rows *)

Definition url_of (row : Table.Row) : string :=
  download_url (fmt (Table.PDB_ID row)).

(** What the [try] block of a row comes to: the walk, or the error of the
    request, of the status check or of the parser. *)
Definition attempt (env : Outside) (pdb_id : option string) : outcome Extract.Walk :=
  match remote env (download_url (fmt pdb_id)) with
  | Raise e => Raise e
  | Return response =>
      if bool_decide (400 ≤ status_code response < 600)
      then Raise (http_error env response)
      else match get_structure env (fmt pdb_id) (text response) with
           | Raise e => Raise e
           | Return structure => Return (Extract.walk structure)
           end
  end.

(** The row [ache_only_extract.py] appends for a row of the frame, if any. *)
Definition kept (env : Outside) (row : Table.Row) : option Table.Result :=
  match attempt env (Table.PDB_ID row) with
  | Return wk => Some (Table.result_of row wk)
  | Raise _ => None
  end.

(** The row [ligand_mapping_full.py] appends for a row of the frame. *)
Definition recorded (env : Outside) (row : Table.Row) : Table.Result :=
  match attempt env (Table.PDB_ID row) with
  | Return wk => Table.result_of row wk
  | Raise e => MappingFull.error_row row e
  end.

End Notions.

(** * The other scripts *)

(** ** [theligand_mapping.py] (lines 10 to 40): one entry, the ligands
    kept as a set *)

Module TheLigand.
Import Text Bio.

Definition solvents : gset string :=
  {[ "HOH"; "WAT"; "SO4"; "PO4"; "CL"; "NA"; "MG"; "ZN"; "K"; "CA" ]}.

Record Sets := mkSets {
  ligands : gset string;
  all_residues : gset string
}.

Definition start : Sets := mkSets ∅ ∅.

(** The body of the innermost loop. *)
Definition visit (acc : Sets) (residue : Residue) : Sets :=
  let resname := strip (get_resname residue) in
  let seen := all_residues acc ∪ {[ resname ]} in
  let hetfield := (id residue).1.1 in
  if startswith "H_" hetfield || negb (String.eqb hetfield " ") then
    if bool_decide (resname ∉ solvents)
    then mkSets (ligands acc ∪ {[ resname ]}) seen
    else mkSets (ligands acc) seen
  else mkSets (ligands acc) seen.

Definition walk (structure : Structure) : Sets :=
  foldl (fun acc model =>
           foldl (fun acc chain => foldl visit acc chain) acc model)
    start structure.

(** The cell [Ligand(s)] of the printed row. *)
Definition ligand_cell (acc : Sets) : string :=
  if bool_decide (ligands acc = ∅) then "None"
  else join ", " (sorted (ligands acc)).

Definition residue_cell (acc : Sets) : string :=
  join ", " (sorted (all_residues acc)).

End TheLigand.

(** ** The code column of [realligand_mapping.py] (line 26) and of
    [ligand_mapping.py] (line 30) *)

Module RealLigandLoad.
Import Text Regex.

(** [([0-9a-zA-Z]{4})$] *)
Definition alnum4_end : string -> option string :=
  search (four is_alnum at_end).

(** No clean-up comes before the pattern in these two scripts. *)
Definition extract_pdb_id (label : string) : option string :=
  upper <$> alnum4_end label.

End RealLigandLoad.

(** ** [extract_ligands_dual.py] (lines 66 to 132): the loop over the rows
    of one sheet, the filter, the table that is saved and the console
    lines after it.  [rows] is the frame after lines 57 to 64. *)

Module ExtractDual.
Import Text Py Http Table.

(** Lines 100 to 107: the residue column reads None for an empty set. *)
Definition result_of (row : Row) (w : Extract.Walk) : Result :=
  mkResult (Unique_ID row) (PDB_ID_label row) (PDB_ID row)
    (Extract.most_common_ligand w)
    (match Extract.ligands w with
     | [] => "None"
     | _ :: _ => join ", " (sorted (Extract.ligand_candidates w))
     end)
    (if bool_decide (Extract.all_residues w = ∅) then "None"
     else join ", " (sorted (Extract.all_residues w))).

(** Lines 111 to 118. *)
Definition error_row (row : Row) : Result :=
  mkResult (Unique_ID row) (PDB_ID_label row) (PDB_ID row) "N/A" "N/A" "N/A".

(** Line 124: [result_df[result_df["Ligand(s)"].isin(["None", "N/A"]) == False]] *)
Definition drop_failed (results : list Result) : list Result :=
  filter (fun r => res_ligand r ∉ ["None"; "N/A"]) results.

(** Lines 121 to 124.  A list without rows makes a frame without columns,
    and looking up the ligand column of that frame is a key error. *)
Definition result_df (results : list Result) : M (list Result) :=
  match results with
  | [] => raise "'Ligand(s)'"
  | _ :: _ => ret (drop_failed results)
  end.

(** Lines 45 and 46. *)
Definition SHEETS : list (string * string) :=
  [ ("AChE", "ligand_mapping_ache_cleaned.csv");
    ("BD2", "ligand_mapping_bd2_cleaned.csv") ].

(** Line 127. *)
Definition output_path (output_file : string) : Path.PurePath :=
  Path.joinpath (Path.parse "data") output_file.

Section Loop.
Variable env : Outside.
Variable pd : Report.

Definition turn (results : list Result) (row : Row) : M (list Result) :=
  try_except
    (w ← fetch_and_walk env (PDB_ID row);
     ret (results ++ [result_of row w]))
    (fun e =>
       print ("Skipping " +:+ fmt (PDB_ID row) +:+ " due to error: " +:+ e);;
       ret (results ++ [error_row row])).

Fixpoint loop (results : list Result) (rows : list Row) : M (list Result) :=
  match rows with
  | [] => ret results
  | row :: rest => results' ← turn results row; loop results' rest
  end.

(** Lines 66 to 132 for one sheet; the value is the table that is
    written. *)
Definition sheet (sheet_name output_file : string) (rows : list Row)
  : M (list Result) :=
  results ← loop [] rows;
  saved ← result_df results;
  to_csv pd (Path.str (output_path output_file)) saved;;
  print (saved_line pd saved);;
  print (String "010" ("Preview of first 10 rows (" +:+ sheet_name +:+ "):"));;
  print (head_text pd saved);;
  ret saved.
End Loop.

End ExtractDual.

(** ** [ligand_residue_test.py] (lines 8 and 14 to 56) *)

Module ResidueTest.
Import Text Py Http.

Definition pdb_ids : list string := ["7RUI"; "7EHW"; "7EHY"; "7EIG"; "7REK"].

Record TestRow := mkTestRow {
  t_pdb_id : string;
  t_ligand : string;
  t_candidates : string;
  t_residues : string
}.

Section Loop.
Variable env : Outside.

Definition turn (results : list TestRow) (pdb_id : string) : M (list TestRow) :=
  try_except
    (w ← Table.fetch_and_walk env (Some pdb_id);
     ret (results ++ [mkTestRow pdb_id
                        (Extract.col_ligand (Extract.columns w))
                        (Extract.col_candidates (Extract.columns w))
                        (Extract.col_residues (Extract.columns w))]))
    (fun e => ret (results ++ [mkTestRow pdb_id ("Error: " +:+ e) "N/A" "N/A"])).

Fixpoint loop (results : list TestRow) (ids : list string) : M (list TestRow) :=
  match ids with
  | [] => ret results
  | pdb_id :: rest => results' ← turn results pdb_id; loop results' rest
  end.
End Loop.

End ResidueTest.

(** ** Tables read back from a CSV file

    After [pd.read_csv] any cell may be missing (NaN); a cell is its text
    or nothing. *)

Module Csv.

Record Entry := mkEntry {
  c_unique_id : option string;
  c_label : option string;
  c_pdb_id : option string;
  c_ligand : option string;
  c_candidates : option string;
  c_residues : option string
}.

End Csv.

(** ** [data/validate_ligand_mapping.py] (lines 33 to 49) *)

Module Validate.
Import Text Py Csv.

(** [str.contains("Error", na=False)] on a cell *)
Definition has_error (cell : option string) : bool :=
  match cell with
  | Some s => contains "Error" s
  | None => false
  end.

(** [str.lower() != "none"] on a cell: a missing cell differs from it. *)
Definition not_none (cell : option string) : bool :=
  match cell with
  | Some s => negb (String.eqb (lower s) "none")
  | None => true
  end.

(** Lines 33 to 36. *)
Definition clean_df (df : list Entry) : list Entry :=
  filter (fun r => is_Some (c_pdb_id r))
    (filter (fun r => not_none (c_ligand r) = true)
       (filter (fun r => has_error (c_ligand r) = false) df)).

Definition is_upper_alnum (c : ascii) : bool := is_upper c || is_digit c.

(** [re.fullmatch(r"[A-Z0-9]{2,4}", s)]: the whole of [s] is two to four
    characters of the class. *)
Definition fullmatch_2_4 (s : string) : bool :=
  bool_decide (2 ≤ String.length s ≤ 4) && all_chars is_upper_alnum s.

(** Lines 39 and 40. *)
Definition is_valid_ligand_name (name : string) : bool :=
  fullmatch_2_4 (strip name).

(** Lines 42 to 45.  A missing cell is a float, which has no [strip]. *)
Fixpoint flag (invalid_ligands : list (option string * string))
    (rows : list Entry) : outcome (list (option string * string)) :=
  match rows with
  | [] => Return invalid_ligands
  | r :: rest =>
      match c_ligand r with
      | None => Raise "'float' object has no attribute 'strip'"
      | Some lig =>
          if is_valid_ligand_name lig then flag invalid_ligands rest
          else flag (invalid_ligands ++ [(c_pdb_id r, lig)]) rest
      end
  end.

(** The column [Ligand(s)] as [read_csv] types it: a column of text,
    unless the frame has rows and every cell of the column is missing,
    which makes it a column of floats. *)
Definition ligand_is_text (df : list Entry) : bool :=
  match df with
  | [] => true
  | _ :: _ => bool_decide (Exists (fun r => is_Some (c_ligand r)) df)
  end.

(** The table that is saved on line 49 and the names that are reported,
    or the error that ends the script before line 49: the [.str] of line
    34 on a column of floats, or the [strip] of line 40 on a missing
    cell. *)
Definition main (df : list Entry)
  : outcome (list Entry * list (option string * string)) :=
  if ligand_is_text df then
    match flag [] (clean_df df) with
    | Return invalid_ligands => Return (clean_df df, invalid_ligands)
    | Raise e => Raise e
    end
  else Raise "Can only use .str accessor with string values!".

End Validate.

(** ** [cleaned_only_both.py]

    The console lines of this script are left out.  [parse_csv] and
    [render_csv] stand for the reader and the writer of pandas. *)

Module CleanedOnly.
Import Text Py Csv.

Record CsvIO := mkCsvIO {
  parse_csv : string -> outcome (list Entry);
  render_csv : list Entry -> string
}.

(** A frame with its columns, or the empty [pd.DataFrame()]. *)
Inductive Frame : Type :=
| WithColumns (rows : list Entry)
| NoColumns.

Definition ache_path : string := "data/ligand_mapping_ache.csv".
Definition bd2_path : string := "data/ligand_mapping_bd2.csv".
Definition ache_output : string := "data/ligand_mapping_ache_cleaned_only.csv".
Definition bd2_output : string := "data/ligand_mapping_bd2_cleaned_only.csv".

Definition invalid_entries : gset string := {[ "None"; "N/A"; "" ]}.

(** [isin(invalid_entries)] on a cell *)
Definition isin_invalid (cell : option string) : bool :=
  match cell with
  | Some s => bool_decide (s ∈ invalid_entries)
  | None => false
  end.

Section Script.
Variable io : CsvIO.

(** [pd.read_csv(path)] *)
Definition read_csv (path : string) : M (list Entry) :=
  fun w => match files w !! path with
           | Some content => (parse_csv io content, w)
           | None => (Raise ("[Errno 2] No such file or directory: '"
                               +:+ path +:+ "'"), w)
           end.

(** Lines 24 to 36. *)
Definition load (path : string) : M Frame :=
  try_except
    (rows ← read_csv path; ret (WithColumns rows))
    (fun _ => ret NoColumns).

(** Lines 40 and 41 (44 and 45): the column is looked up first. *)
Definition clean (df : Frame) : M (list Entry) :=
  match df with
  | NoColumns => raise "'Ligand(s)'"
  | WithColumns rows =>
      ret (filter (fun r => is_Some (c_ligand r))
             (filter (fun r => isin_invalid (c_ligand r) = false) rows))
  end.

(** [df.to_csv(path, index=False)] *)
Definition to_csv (path : string) (rows : list Entry) : M unit :=
  write_text path (render_csv io rows).

Definition main : M (list Entry * list Entry) :=
  df_ache ← load ache_path;
  df_bd2 ← load bd2_path;
  df_ache_clean ← clean df_ache;
  df_bd2_clean ← clean df_bd2;
  to_csv ache_output df_ache_clean;;
  to_csv bd2_output df_bd2_clean;;
  ret (df_ache_clean, df_bd2_clean).
End Script.

End CleanedOnly.

(** ** Further notions and examples *)

Module MoreNotions.
Import Text Bio Py Http Table Csv Notions.

(** *** Text *)

Definition is_ascii (c : ascii) : bool := N.ltb (code c) 128.

(** The characters of a found code: digits, capitals, the underscore. *)
Definition code_char (c : ascii) : bool :=
  is_digit c || is_upper c || N.eqb (code c) 95.

(** The last character, and the text without it. *)
Fixpoint final (s : string) : option ascii :=
  match s with
  | EmptyString => None
  | String c r =>
      match r with
      | EmptyString => Some c
      | String _ _ => final r
      end
  end.

Fixpoint chop (s : string) : string :=
  match s with
  | EmptyString => EmptyString
  | String c r =>
      match r with
      | EmptyString => EmptyString
      | String _ _ => String c (chop r)
      end
  end.

(** *** Counters *)

Definition total (c : Counter.t) : nat := sum_list (c.*2).

(** *** Rows *)

(** The console line of [ache_only_extract.py] for a row, if any. *)
Definition failure_line (env : Outside) (row : Row) : option string :=
  match attempt env (PDB_ID row) with
  | Return _ => None
  | Raise e =>
      Some ("Skipping " +:+ fmt (PDB_ID row) +:+ " due to error: " +:+ e)
  end.

(** The console line of [ligand_mapping_full.py] for a row, if any. *)
Definition full_failure_line (env : Outside) (row : Row) : option string :=
  match attempt env (PDB_ID row) with
  | Return _ => None
  | Raise e => Some ("Error fetching " +:+ fmt (PDB_ID row) +:+ ": " +:+ e)
  end.

(** Where [extract_ligands_split_dual.py] puts a result. *)
Definition to_bd2 (r : Result) : bool :=
  contains "bd2" (lower (res_unique_id r)).
Definition to_ache (r : Result) : bool :=
  negb (to_bd2 r) && contains "ache" (lower (res_unique_id r)).

(** The row [extract_ligands_dual.py] appends for a row of the frame. *)
Definition recorded_dual (env : Outside) (row : Row) : Result :=
  match attempt env (PDB_ID row) with
  | Return wk => ExtractDual.result_of row wk
  | Raise _ => ExtractDual.error_row row
  end.

(** The row [ligand_residue_test.py] appends for a code. *)
Definition test_row (env : Outside) (pdb_id : string) : ResidueTest.TestRow :=
  match attempt env (Some pdb_id) with
  | Return w =>
      ResidueTest.mkTestRow pdb_id
        (Extract.col_ligand (Extract.columns w))
        (Extract.col_candidates (Extract.columns w))
        (Extract.col_residues (Extract.columns w))
  | Raise e => ResidueTest.mkTestRow pdb_id ("Error: " +:+ e) "N/A" "N/A"
  end.

(** The names [validate_ligand_mapping.py] reports for a table without
    missing ligand cells. *)
Definition suspicious (rows : list Entry) : list (option string * string) :=
  omap (fun r => match c_ligand r with
                 | Some lig =>
                     if Validate.is_valid_ligand_name lig then None
                     else Some (c_pdb_id r, lig)
                 | None => None
                 end) rows.

(** The rows [cleaned_only_both.py] keeps of a table. *)
Definition valid_rows (rows : list Entry) : list Entry :=
  filter (fun r => is_Some (c_ligand r))
    (filter (fun r => CleanedOnly.isin_invalid (c_ligand r) = false) rows).

(** *** Lines of a structure file *)

(** The line makes the scanner of [realligand_mapping.py] keep the name. *)
Definition keeps (line name : string) : Prop :=
  startswith "HETATM" line = true
  /\ strip (slice 17 20 line) = name
  /\ name ≠ ""
  /\ upper name ∉ RealLigand.exclude_resnames.

End MoreNotions.

Module MoreScenarios.
Import Bio Scenarios Csv.

(** The residues of [scenario_C] in one chain, and in one chain each. *)
Definition scenario_C_flat : Structure := [ [ residues scenario_C ] ].
Definition scenario_C_split : Structure :=
  [ (fun r => [r]) <$> residues scenario_C ].

Definition entry (pdb_id ligand : option string) : Entry :=
  mkEntry (Some "AChE_001") pdb_id pdb_id ligand ligand (Some "ALA, HOH").

(** A table as [ligand_mapping_full.py] leaves it: a ligand, a failed
    download, a structure without ligand, a row without code. *)
Definition mapping_table : list Entry :=
  [ entry (Some "4EY7") (Some "E20");
    entry (Some "1XYZ") (Some "Error: 404 Client Error: Not Found");
    entry (Some "1ACJ") (Some "None");
    entry None (Some "THA") ].

Definition table_with_gap : list Entry :=
  [ entry (Some "4EY7") (Some "E20"); entry (Some "1ACJ") None ].

(** A report that writes the ligand of each row. *)
Definition toy_report : Table.Report :=
  Table.mkReport (fun rows => Text.join "," (Table.res_ligand <$> rows))
    (fun _ => "saved") (fun _ => "head").

(** A table of two rows, the second of which is not in [one_entry]. *)
Definition two_labels : list Table.Input :=
  [ Table.mkInput "AChE_001" " 4ey7"; Table.mkInput "AChE_002" "1XYZ" ].

(** A reader that knows one file text, and a writer that counts rows. *)
Definition toy_io : CleanedOnly.CsvIO :=
  CleanedOnly.mkCsvIO
    (fun content =>
       if String.eqb content "ache" then Py.Return mapping_table
       else Py.Raise "No columns to parse from file")
    (fun rows => if bool_decide (rows = []) then "" else "rows").

Definition only_bd2_world : Py.World :=
  Py.mkWorld {[ "data/ligand_mapping_bd2.csv" := "ache" ]} [] [].

Definition both_world : Py.World :=
  Py.mkWorld {[ "data/ligand_mapping_ache.csv" := "ache";
                "data/ligand_mapping_bd2.csv" := "ache" ]} [] [].

End MoreScenarios.

(** * Properties *)

(** ** Stripping *)

Module TextFacts.
Import Text Notions.

Lemma lstrip_head_not_space s c r :
  lstrip s = String c r -> isspace c = false.
Proof.
  induction s as [|a s IH]; simpl; [discriminate|].
  destruct (isspace a) eqn:Ha; [exact IH|].
  intros [= <- <-]; exact Ha.
Qed.

Lemma rstrip_cons_keep c r :
  isspace c = false -> rstrip (String c r) = String c (rstrip r).
Proof. intros Hc. simpl. rewrite Hc. by destruct (rstrip r). Qed.

Lemma ends_with_space_rstrip s : ends_with_space (rstrip s) = false.
Proof.
  induction s as [|c s IH]; simpl; [done|].
  destruct (rstrip s) as [|a r] eqn:E.
  - destruct (isspace c) eqn:Hc; simpl; [done|by rewrite Hc].
  - exact IH.
Qed.

Lemma starts_with_space_strip s : starts_with_space (strip s) = false.
Proof.
  unfold strip. destruct (lstrip s) as [|c r] eqn:E; [done|].
  apply lstrip_head_not_space in E.
  rewrite rstrip_cons_keep by done. exact E.
Qed.

(** A stripped string has no white space at either end. *)
Lemma bare_strip s : bare (strip s) = true.
Proof.
  unfold bare. rewrite starts_with_space_strip. unfold strip.
  by rewrite ends_with_space_rstrip.
Qed.

Lemma lstrip_bare s : starts_with_space s = false -> lstrip s = s.
Proof. destruct s as [|c r]; simpl; [done|]. by intros ->. Qed.

Lemma rstrip_bare s : ends_with_space s = false -> rstrip s = s.
Proof.
  induction s as [|c s IH]; [done|]. cbn [ends_with_space].
  destruct s as [|a r].
  - intros Hc. simpl. by rewrite Hc.
  - intros H. specialize (IH H). simpl in *. by rewrite IH.
Qed.

End TextFacts.

(** ** Counters *)

Module CounterFacts.
Import Counter Notions.

Lemma get_incr_eq k c : get (incr k c) k = S (get c k).
Proof.
  induction c as [|[k' n] c IH]; simpl.
  - by rewrite String.eqb_refl.
  - destruct (String.eqb k' k) eqn:E; simpl; rewrite E; done.
Qed.

Lemma get_incr_ne k k' c : k ≠ k' -> get (incr k c) k' = get c k'.
Proof.
  intros Hne. induction c as [|[k0 n] c IH]; simpl.
  - apply String.eqb_neq in Hne. by rewrite Hne.
  - destruct (String.eqb k0 k) eqn:E; simpl.
    + apply String.eqb_eq in E as ->.
      apply String.eqb_neq in Hne. by rewrite Hne.
    + by rewrite IH.
Qed.

Lemma keys_incr_in k c : k ∈ keys c -> keys (incr k c) = keys c.
Proof.
  unfold keys. induction c as [|[k' n] c IH]; simpl; intros Hin.
  - by apply elem_of_nil in Hin.
  - destruct (String.eqb k' k) eqn:E; simpl; [done|].
    apply elem_of_cons in Hin as [->|Hin].
    + by rewrite String.eqb_refl in E.
    + f_equal. by apply IH.
Qed.

Lemma keys_incr_notin k c : k ∉ keys c -> keys (incr k c) = keys c ++ [k].
Proof.
  unfold keys. induction c as [|[k' n] c IH]; simpl; intros Hin; [done|].
  apply not_elem_of_cons in Hin as [Hne Hin].
  destruct (String.eqb k' k) eqn:E; simpl.
  - apply String.eqb_eq in E. congruence.
  - f_equal. by apply IH.
Qed.

Lemma tally_snoc l k : tally (l ++ [k]) = incr k (tally l).
Proof. unfold tally. by rewrite foldl_app. Qed.

Lemma occ_snoc k x l :
  occ k (l ++ [x]) = if decide (x = k) then S (occ k l) else occ k l.
Proof.
  unfold occ. rewrite filter_app, length_app. simpl.
  rewrite filter_cons, filter_nil. destruct (decide (x = k)); simpl; lia.
Qed.

(** A counter read is the number of times the key was counted. *)
Lemma get_tally k l : get (tally l) k = occ k l.
Proof.
  induction l as [|x l IH] using rev_ind; [done|].
  rewrite tally_snoc, occ_snoc. destruct (decide (x = k)) as [->|Hne].
  - by rewrite get_incr_eq, IH.
  - by rewrite get_incr_ne, IH.
Qed.

Lemma keys_tally_snoc l k :
  keys (tally (l ++ [k])) =
    if decide (k ∈ keys (tally l)) then keys (tally l) else keys (tally l) ++ [k].
Proof.
  rewrite tally_snoc. destruct (decide _).
  - by apply keys_incr_in.
  - by apply keys_incr_notin.
Qed.

Lemma elem_of_keys_tally k l : k ∈ keys (tally l) <-> k ∈ l.
Proof.
  induction l as [|x l IH] using rev_ind; [done|].
  rewrite keys_tally_snoc, elem_of_app, list_elem_of_singleton.
  destruct (decide (x ∈ keys (tally l))) as [Hin|Hin].
  - rewrite IH. split; [tauto|]. intros [?| ->]; [done|]. by apply IH.
  - rewrite elem_of_app, list_elem_of_singleton, IH. tauto.
Qed.

Lemma NoDup_keys_tally l : NoDup (keys (tally l)).
Proof.
  induction l as [|x l IH] using rev_ind; [constructor|].
  rewrite keys_tally_snoc. destruct (decide _) as [Hin|Hin]; [done|].
  apply NoDup_app. split_and!; [done| |apply NoDup_singleton].
  intros y Hy ->%list_elem_of_singleton. done.
Qed.

Lemma tally_nil_inv l : tally l = [] -> l = [].
Proof.
  destruct l as [|x l]; [done|]. intros H.
  assert (x ∈ keys (tally (x :: l))) as Hin by (apply elem_of_keys_tally; left).
  rewrite H in Hin. by apply elem_of_nil in Hin.
Qed.

(** The keys are in the order in which they were first counted. *)
Lemma keys_tally_split l ks1 p ks2 :
  keys (tally l) = ks1 ++ p :: ks2 ->
  exists l1 l2, l = l1 ++ p :: l2 /\ (p ∉ l1) /\ (forall x, x ∈ l1 -> x ∈ ks1).
Proof.
  revert ks2. induction l as [|x l IH] using rev_ind; intros ks2 Hk.
  - by destruct ks1.
  - rewrite keys_tally_snoc in Hk. destruct (decide _) as [Hin|Hin].
    + destruct (IH _ Hk) as (l1 & l2 & -> & ? & ?).
      exists l1, (l2 ++ [x]). by rewrite <- app_assoc.
    + destruct ks2 as [|y ks2 _] using rev_ind.
      * apply (app_inj_2 _ _ _ [p]) in Hk as [Hk [= <-]]; [|done].
        exists l, []. split_and!; [done| |].
        -- intros Hx. by apply Hin, elem_of_keys_tally.
        -- intros y Hy. rewrite <- Hk. by apply elem_of_keys_tally.
      * rewrite app_comm_cons, app_assoc in Hk.
        apply (app_inj_2 _ _ _ [y]) in Hk as [Hk _]; [|done].
        destruct (IH _ Hk) as (l1 & l2 & -> & ? & ?).
        exists l1, (l2 ++ [x]). by rewrite <- app_assoc.
Qed.

Lemma get_of_item c k n : NoDup (keys c) -> (k, n) ∈ c -> get c k = n.
Proof.
  induction c as [|[k' n'] c IH]; simpl; intros Hnd Hin.
  - by apply elem_of_nil in Hin.
  - apply NoDup_cons in Hnd as [Hk' Hnd].
    apply elem_of_cons in Hin as [[= -> ->]|Hin].
    + by rewrite String.eqb_refl.
    + destruct (String.eqb k' k) eqn:E; [|by apply IH].
      apply String.eqb_eq in E as ->. exfalso. apply Hk'.
      apply list_elem_of_fmap. by exists (k, n).
Qed.

(** [max] returns the first of the items with the largest count. *)
Lemma max_from_split pre mid best l :
  Forall (fun x => x.2 < best.2) pre ->
  Forall (fun x => x.2 ≤ best.2) mid ->
  exists c1 c2,
    pre ++ best :: mid ++ l = c1 ++ max_from best l :: c2
    /\ Forall (fun x => x.2 < (max_from best l).2) c1
    /\ Forall (fun x => x.2 ≤ (max_from best l).2) c2.
Proof.
  revert pre mid best. induction l as [|x l IH]; intros pre mid best Hpre Hmid; simpl.
  - exists pre, mid. by rewrite app_nil_r.
  - destruct (best.2 <? x.2) eqn:E.
    + apply Nat.ltb_lt in E.
      destruct (IH (pre ++ best :: mid) [] x) as (c1 & c2 & Heq & ? & ?).
      * apply Forall_app. split; [|apply Forall_cons; split; [done|]].
        -- eapply Forall_impl; [exact Hpre|]. simpl. lia.
        -- eapply Forall_impl; [exact Hmid|]. simpl. lia.
      * constructor.
      * exists c1, c2. split; [|done]. rewrite <- Heq. simpl.
        rewrite <- app_assoc. done.
    + apply Nat.ltb_ge in E.
      destruct (IH pre (mid ++ [x]) best) as (c1 & c2 & Heq & ? & ?); [done| |].
      * apply Forall_app. split; [done|]. by apply Forall_singleton.
      * exists c1, c2. split; [|done]. rewrite <- Heq.
        by rewrite <- app_assoc.
Qed.

Lemma most_common1_split x c :
  exists c1 c2,
    x :: c = c1 ++ max_from x c :: c2
    /\ Forall (fun y => y.2 < (max_from x c).2) c1
    /\ Forall (fun y => y.2 ≤ (max_from x c).2) c2.
Proof. apply (max_from_split [] [] x c); constructor. Qed.

End CounterFacts.

(** ** The residue walk *)

Module ExtractFacts.
Import Text Bio Extract Notions CounterFacts.

Lemma visit_unfold w r :
  visit w r =
    if counted r
    then mkWalk (ligands w ++ [name_of r]) (all_residues w ∪ {[ name_of r ]})
           (Counter.incr (name_of r) (residue_counts w))
    else mkWalk (ligands w) (all_residues w ∪ {[ name_of r ]}) (residue_counts w).
Proof.
  unfold visit, counted, is_heteroatom, name_of.
  destruct (negb _); simpl; [|done]. by destruct (bool_decide _).
Qed.

Lemma foldl_concat {A B} (f : A -> B -> A) (g : A -> list B -> A)
    (ls : list (list B)) (a : A) :
  (forall a l, g a l = foldl f a l) ->
  foldl g a ls = foldl f a (concat ls).
Proof.
  intros Hg. revert a. induction ls as [|l ls IH]; intros a; simpl; [done|].
  by rewrite foldl_app, IH, Hg.
Qed.

(** The three nested loops visit the residues in iteration order. *)
Lemma walk_flat s : walk s = foldl visit start (residues s).
Proof.
  unfold walk, residues.
  rewrite (foldl_concat walk_chain walk_model); [|done].
  by rewrite (foldl_concat visit walk_chain).
Qed.

Lemma candidate_names_cons r rs :
  candidate_names (r :: rs) =
    if counted r then name_of r :: candidate_names rs else candidate_names rs.
Proof.
  unfold candidate_names. rewrite filter_cons.
  by destruct (counted r).
Qed.

Lemma foldl_visit_ligands rs w :
  ligands (foldl visit w rs) = ligands w ++ candidate_names rs.
Proof.
  revert w. induction rs as [|r rs IH]; intros w; simpl.
  - unfold candidate_names. simpl. by rewrite app_nil_r.
  - rewrite IH, visit_unfold, candidate_names_cons.
    destruct (counted r); simpl; [|done]. by rewrite <- app_assoc.
Qed.

Lemma foldl_visit_counts rs w :
  residue_counts (foldl visit w rs) =
    foldl (fun c k => Counter.incr k c) (residue_counts w) (candidate_names rs).
Proof.
  revert w. induction rs as [|r rs IH]; intros w; simpl; [done|].
  rewrite IH, visit_unfold, candidate_names_cons.
  by destruct (counted r).
Qed.

Lemma foldl_visit_all rs w :
  all_residues (foldl visit w rs) = all_residues w ∪ list_to_set (name_of <$> rs).
Proof.
  revert w. induction rs as [|r rs IH]; intros w; simpl.
  - set_solver.
  - rewrite IH, visit_unfold. destruct (counted r); simpl; set_solver.
Qed.

Lemma walk_ligands s : ligands (walk s) = candidate_names (residues s).
Proof. by rewrite walk_flat, foldl_visit_ligands. Qed.

Lemma walk_counts s : residue_counts (walk s) = tally (candidate_names (residues s)).
Proof. by rewrite walk_flat, foldl_visit_counts. Qed.

Lemma walk_all s : all_residues (walk s) = list_to_set (name_of <$> residues s).
Proof. rewrite walk_flat, foldl_visit_all. set_solver. Qed.

Lemma walk_counts_ligands s : residue_counts (walk s) = tally (ligands (walk s)).
Proof. by rewrite walk_counts, walk_ligands. Qed.

Lemma elem_of_candidate_names n rs :
  n ∈ candidate_names rs <-> exists r, r ∈ rs /\ counted r = true /\ name_of r = n.
Proof.
  unfold candidate_names. rewrite list_elem_of_fmap. split.
  - intros (r & -> & Hr). apply list_elem_of_filter in Hr as [Hc Hr].
    exists r. split_and!; [done| |done]. by apply Is_true_eq_true.
  - intros (r & Hr & Hc & <-). exists r. split; [done|].
    apply list_elem_of_filter. split; [|done]. by apply Is_true_eq_left.
Qed.

(** What the chosen name is, in terms of the sequence of counted names:
    it has the largest count, and every name first met before it has a
    strictly smaller count. *)
Lemma most_common_ligand_first_max w :
  residue_counts w = tally (ligands w) ->
  ligands w ≠ [] ->
  exists l1 l2,
    ligands w = l1 ++ most_common_ligand w :: l2
    /\ (most_common_ligand w ∉ l1)
    /\ (forall c, c ∈ l1 ->
          Counter.get (residue_counts w) c
          < Counter.get (residue_counts w) (most_common_ligand w))
    /\ (forall c, c ∈ ligands w ->
          Counter.get (residue_counts w) c
          ≤ Counter.get (residue_counts w) (most_common_ligand w)).
Proof.
  intros Hc Hne.
  destruct (residue_counts w) as [|x c] eqn:E.
  { symmetry in Hc. apply tally_nil_inv in Hc. done. }
  assert (most_common_ligand w = (Counter.max_from x c).1) as ->
    by (unfold most_common_ligand; by rewrite E).
  destruct (most_common1_split x c) as (c1 & c2 & Hsplit & Hlt & Hle).
  set (m := Counter.max_from x c) in *.
  assert (NoDup (keys (x :: c))) as Hnd by (rewrite Hc; apply NoDup_keys_tally).
  assert (Counter.get (x :: c) m.1 = m.2) as Hm.
  { apply get_of_item; [done|]. rewrite Hsplit. destruct m.
    apply elem_of_app. right. left. }
  assert (keys (tally (ligands w)) = keys c1 ++ m.1 :: keys c2) as Hk.
  { rewrite <- Hc, Hsplit. unfold keys. by rewrite fmap_app. }
  destruct (keys_tally_split _ _ _ _ Hk) as (l1 & l2 & Hl & Hnot & Hin).
  exists l1, l2. split_and!; [done|done| |].
  - intros k Hk1. apply Hin in Hk1. unfold keys in Hk1.
    apply list_elem_of_fmap in Hk1 as ([k' n] & -> & Hkn). cbn [fst].
    rewrite Hm. rewrite (get_of_item _ k' n); [|done|].
    + rewrite Forall_forall in Hlt. by apply (Hlt _ Hkn).
    + rewrite Hsplit. apply elem_of_app. by left.
  - intros k Hk1. apply elem_of_keys_tally in Hk1. rewrite <- Hc in Hk1.
    unfold keys in Hk1. apply list_elem_of_fmap in Hk1 as ([k' n] & -> & Hkn).
    cbn [fst]. rewrite Hm. rewrite (get_of_item _ k' n); [|done|done].
    rewrite Hsplit in Hkn. apply elem_of_app in Hkn as [Hkn|Hkn].
    + rewrite Forall_forall in Hlt. apply Nat.lt_le_incl. by apply (Hlt _ Hkn).
    + apply elem_of_cons in Hkn as [Heq|Hkn]; [by rewrite <- Heq|].
      rewrite Forall_forall in Hle. by apply (Hle _ Hkn).
Qed.

End ExtractFacts.

(** ** The chosen ligand *)

Module LigandFacts.
Import Text Bio Extract Notions CounterFacts TextFacts ExtractFacts.

Lemma strip_idem s : strip (strip s) = strip s.
Proof.
  pose proof (bare_strip s) as Hb. unfold bare in Hb.
  apply andb_true_iff in Hb as [H1 H2].
  apply negb_true_iff in H1, H2.
  unfold strip at 1. by rewrite (lstrip_bare _ H1), (rstrip_bare _ H2).
Qed.

Lemma occ_candidate_names name rs :
  occ name (candidate_names rs) =
    length (filter (fun r => is_heteroatom r = true
                             /\ name_of r = name
                             /\ name ∉ SOLVENTS) rs).
Proof.
  unfold occ. induction rs as [|r rs IH]; [done|].
  rewrite candidate_names_cons, (filter_cons _ r rs).
  destruct (decide _) as [(Hh & Hn & Hs)|Hnot].
  - unfold counted. rewrite Hh, Hn, bool_decide_true by done. simpl.
    rewrite filter_cons, decide_True by done. simpl. by rewrite IH.
  - destruct (counted r) eqn:Hc; [|done].
    unfold counted in Hc. apply andb_true_iff in Hc as [Hh Hs].
    apply bool_decide_eq_true in Hs.
    rewrite filter_cons, decide_False; [done|].
    intros E. apply Hnot. by subst.
Qed.

(** The counter holds, for every name, the number of residues counted
    under that name. *)
Lemma counts_are_occurrences s name :
  Counter.get (residue_counts (walk s)) name = occurrences name s.
Proof.
  rewrite walk_counts, get_tally. apply occ_candidate_names.
Qed.

Lemma ligand_candidates_empty w : ligand_candidates w = ∅ <-> ligands w = [].
Proof.
  unfold ligand_candidates. split; [|by intros ->].
  destruct (ligands w) as [|x l]; [done|]. simpl. set_solver.
Qed.

Lemma most_common_ligand_none w :
  residue_counts w = tally (ligands w) ->
  ligands w = [] -> most_common_ligand w = "None".
Proof. intros Hc Hl. unfold most_common_ligand. by rewrite Hc, Hl. Qed.

Lemma no_solvent_candidate s n :
  n ∈ SOLVENTS -> n ∉ ligands (walk s).
Proof.
  intros Hs Hin. rewrite walk_ligands in Hin.
  apply elem_of_candidate_names in Hin as (r & _ & Hc & <-).
  unfold counted in Hc. apply andb_true_iff in Hc as [_ Hc].
  by apply bool_decide_eq_true in Hc.
Qed.

(** A change of the residues that [visit] does not see leaves the walk
    as it is. *)
Lemma foldl_visit_map (f : Residue -> Residue) rs w :
  (forall w r, visit w (f r) = visit w r) ->
  foldl visit w (List.map f rs) = foldl visit w rs.
Proof.
  intros Hf. revert w. induction rs as [|r rs IH]; intros w; [done|].
  cbn [List.map foldl]. by rewrite Hf, IH.
Qed.

Lemma walk_map_residues (f : Residue -> Residue) s :
  (forall w r, visit w (f r) = visit w r) ->
  walk (map_residues f s) = walk s.
Proof.
  intros Hf. rewrite !walk_flat. unfold residues, map_residues.
  rewrite <- !concat_map. by apply foldl_visit_map.
Qed.

Lemma visit_stripped w r : visit w (stripped r) = visit w r.
Proof.
  destruct r as [n i a]. unfold visit, stripped, hetfield. simpl.
  by rewrite strip_idem.
Qed.

(** The chosen name is a candidate with the largest number of residues. *)
Lemma chosen_is_max s :
  ligand_candidates (walk s) ≠ ∅ ->
  most_common_ligand (walk s) ∈ ligand_candidates (walk s)
  /\ (forall c, c ∈ ligand_candidates (walk s) ->
        occurrences c s ≤ occurrences (most_common_ligand (walk s)) s).
Proof.
  intros Hne.
  assert (ligands (walk s) ≠ []) as Hl
    by (intros E; by apply Hne, ligand_candidates_empty).
  destruct (most_common_ligand_first_max (walk s) (walk_counts_ligands s) Hl)
    as (l1 & l2 & Hsplit & _ & _ & Hmax).
  unfold ligand_candidates. split.
  - apply elem_of_list_to_set. rewrite Hsplit. set_solver.
  - intros c Hc%elem_of_list_to_set.
    rewrite <- !counts_are_occurrences. by apply Hmax.
Qed.

End LigandFacts.

(** ** The identifier clean-up *)

Module NormalizeFacts.
Import Text Regex Notions TextFacts.

Ltac each_char c :=
  destruct c as [[] [] [] [] [] [] [] []]; vm_compute; try reflexivity;
  intros; try discriminate.

Lemma word_not_space c : is_word c = true -> isspace c = false.
Proof. each_char c. Qed.

Lemma word_not_newline c : is_word c = true -> N.eqb (code c) 10 = false.
Proof. each_char c. Qed.

Lemma alnum_is_word c : is_alnum c = true -> is_word c = true.
Proof. each_char c. Qed.

Lemma alnum_not_nbsp c : is_alnum c = true -> N.eqb (code c) 160 = false.
Proof. each_char c. Qed.

Lemma space_or_not_nbsp c : N.eqb (code c) 160 = true -> isspace c = true.
Proof. each_char c. Qed.

Lemma upper_alnum_not_space c :
  is_alnum c = true -> isspace (upper_char c) = false.
Proof. each_char c. Qed.

Lemma alnum_not_eszett c : is_alnum c = true -> N.eqb (code c) 223 = false.
Proof. each_char c. Qed.

(** Away from the sharp s, [upper] works character by character. *)
Lemma upper_cons c r :
  N.eqb (code c) 223 = false -> upper (String c r) = String (upper_char c) (upper r).
Proof. intros H. cbn [upper]. by rewrite H. Qed.

Lemma upper4 a b c d :
  N.eqb (code a) 223 = false -> N.eqb (code b) 223 = false ->
  N.eqb (code c) 223 = false -> N.eqb (code d) 223 = false ->
  upper (String a (String b (String c (String d ""))))
  = String (upper_char a)
      (String (upper_char b) (String (upper_char c) (String (upper_char d) ""))).
Proof. intros Ha Hb Hc Hd. by rewrite !upper_cons. Qed.

Lemma app_cons x (a b : string) : String x a +:+ b = String x (a +:+ b).
Proof. reflexivity. Qed.

Lemma app_nil_l (a : string) : "" +:+ a = a.
Proof. reflexivity. Qed.

Ltac app_simpl := simpl; rewrite ?app_cons, ?app_nil_l; simpl.

Lemma app_assoc (a b c : string) : (a +:+ b) +:+ c = a +:+ (b +:+ c).
Proof. induction a as [|x a IH]; app_simpl; [done|]. by rewrite IH. Qed.

Lemma app_nil_r (a : string) : a +:+ "" = a.
Proof. induction a as [|x a IH]; app_simpl; [done|]. by rewrite IH. Qed.

Lemma length_app (a b : string) :
  String.length (a +:+ b) = String.length a + String.length b.
Proof. induction a as [|x a IH]; app_simpl; [done|]. by rewrite IH. Qed.

Lemma drop_app_length (a b : string) : drop (String.length a) (a +:+ b) = b.
Proof. induction a as [|x a IH]; app_simpl; [by destruct b|]. done. Qed.

Lemma take_drop n (s : string) : take n s +:+ drop n s = s.
Proof.
  revert s. induction n as [|n IH]; intros [|c s]; app_simpl; try done.
  by rewrite IH.
Qed.

Lemma length_drop n (s : string) :
  String.length (drop n s) = String.length s - n.
Proof.
  revert s. induction n as [|n IH]; intros [|c s]; simpl; try done.
Qed.

Lemma remove_nbsp_app a b : remove_nbsp (a +:+ b) = remove_nbsp a +:+ remove_nbsp b.
Proof.
  induction a as [|x a IH]; app_simpl; [done|].
  destruct (N.eqb (code x) 160); app_simpl; by rewrite IH.
Qed.

Lemma remove_nbsp_alnum s : all_chars is_alnum s = true -> remove_nbsp s = s.
Proof.
  induction s as [|c s IH]; simpl; [done|].
  intros [Hc Hs]%andb_true_iff. by rewrite (alnum_not_nbsp _ Hc), IH.
Qed.

Lemma remove_nbsp_space s :
  all_chars isspace s = true -> all_chars isspace (remove_nbsp s) = true.
Proof.
  induction s as [|c s IH]; simpl; [done|].
  intros [Hc Hs]%andb_true_iff.
  destruct (N.eqb (code c) 160); simpl; [by apply IH|].
  by rewrite Hc, IH.
Qed.

Lemma rstrip_all_space s : all_chars isspace s = true -> rstrip s = "".
Proof.
  induction s as [|c s IH]; simpl; [done|].
  intros [Hc Hs]%andb_true_iff. by rewrite IH, Hc.
Qed.

Lemma rstrip_app_space s ws :
  all_chars isspace ws = true -> rstrip (s +:+ ws) = rstrip s.
Proof.
  intros Hws. induction s as [|c s IH]; app_simpl.
  - by apply rstrip_all_space.
  - by rewrite IH.
Qed.

Lemma ends_with_space_app s t :
  t ≠ "" -> ends_with_space (s +:+ t) = ends_with_space t.
Proof.
  intros Ht. induction s as [|c s IH]; [done|].
  app_simpl. destruct (s +:+ t) eqn:E; [|done].
  destruct s; [by rewrite app_nil_l in E|by rewrite app_cons in E].
Qed.

Lemma lstrip_app_keep s a t :
  isspace a = false -> exists u, lstrip (s +:+ String a t) = u +:+ String a t.
Proof.
  intros Ha. induction s as [|c s IH]; app_simpl.
  - exists "". by rewrite Ha.
  - destruct (isspace c); [exact IH|]. by exists (String c s).
Qed.

Lemma all_chars_impl (p q : ascii -> bool) s :
  (forall c, p c = true -> q c = true) ->
  all_chars p s = true -> all_chars q s = true.
Proof.
  intros Hpq. induction s as [|c s IH]; simpl; [done|].
  intros [Hc Hs]%andb_true_iff. by rewrite (Hpq _ Hc), IH.
Qed.

(** A string of length four, spelled out. *)
Lemma length4_inv (tok : string) :
  String.length tok = 4 ->
  exists a b c d, tok = String a (String b (String c (String d ""))).
Proof.
  destruct tok as [|a [|b [|c [|d [|e r]]]]]; simpl; try discriminate.
  intros _. by exists a, b, c, d.
Qed.

(** The anchored pattern returns the last four characters when they are
    word characters. *)
Lemma word4_end_suffix u a b c d :
  is_word a = true -> is_word b = true -> is_word c = true -> is_word d = true ->
  word4_end (u +:+ String a (String b (String c (String d ""))))
  = Some (String a (String b (String c (String d "")))).
Proof.
  intros Ha Hb Hc Hd. pose proof (word_not_newline _ Hd) as Hn.
  unfold word4_end. induction u as [|x u IH].
  - app_simpl. by rewrite Ha, Hb, Hc, Hd.
  - rewrite app_cons. cbn [search]. rewrite IH.
    assert (four is_word at_end
              (String x (u +:+ String a (String b (String c (String d "")))))
            = None) as ->; [|done].
    destruct u as [|y [|z [|t [|v u]]]]; app_simpl;
      rewrite ?Hn, ?andb_false_r; try done.
    destruct u as [|? [|? ?]]; app_simpl; by rewrite ?andb_false_r.
Qed.

Lemma search_Some m s g :
  search m s = Some g -> exists u v, s = u +:+ v /\ m v = Some g.
Proof.
  induction s as [|c s IH]; simpl.
  - destruct (m "") eqn:E; [|done]. intros [= ->]. by exists "", "".
  - destruct (m (String c s)) eqn:E.
    + intros [= ->]. by exists "", (String c s).
    + intros (u & v & -> & Hv)%IH. by exists (String c u), v.
Qed.

Lemma four_Some cls rest v g :
  four cls rest v = Some g ->
  exists r, v = g +:+ r /\ String.length g = 4
            /\ all_chars cls g = true /\ rest r = true.
Proof.
  destruct v as [|a [|b [|c [|d r]]]]; simpl; try done.
  destruct (_ && _) eqn:E; [|done]. intros [= <-].
  repeat (apply andb_true_iff in E as [E ?]).
  exists r. simpl. by rewrite E, H2, H1, H0.
Qed.

Lemma search_None m s :
  search m s = None -> forall u v, s = u +:+ v -> m v = None.
Proof.
  induction s as [|c s IH]; simpl.
  - destruct (m "") eqn:E; [done|].
    intros _ [|??] v; rewrite ?app_cons, ?app_nil_l; [by intros <-|done].
  - destruct (m (String c s)) eqn:E; [done|].
    intros Hs [|x u] v; rewrite ?app_cons, ?app_nil_l.
    + by intros <-.
    + intros [= <- ->]. by apply (IH Hs u).
Qed.

Lemma all_chars4 p a b c d :
  all_chars p (String a (String b (String c (String d "")))) = true ->
  p a = true /\ p b = true /\ p c = true /\ p d = true.
Proof.
  simpl. intros (? & (? & (? & (? & _)%andb_true_iff)%andb_true_iff)%andb_true_iff)%andb_true_iff.
  done.
Qed.

(** After the clean-up of line 41 a trailing four-character token is still
    the end of the text. *)
Lemma clean_keeps_token pre tok post :
  String.length tok = 4 ->
  all_chars is_alnum tok = true ->
  all_chars isspace post = true ->
  exists u, AcheOnly.clean_label (pre +:+ tok +:+ post) = u +:+ tok.
Proof.
  intros Hlen Htok Hpost.
  destruct (length4_inv _ Hlen) as (a & b & c & d & ->).
  unfold AcheOnly.clean_label, strip.
  rewrite !remove_nbsp_app, (remove_nbsp_alnum _ Htok).
  apply all_chars4 in Htok as (Ha%alnum_is_word%word_not_space & _ & _
                               & Hd%alnum_is_word%word_not_space).
  rewrite !app_cons, app_nil_l.
  destruct (lstrip_app_keep (remove_nbsp pre) a
              (String b (String c (String d (remove_nbsp post)))) Ha) as [u ->].
  exists u.
  change (String a (String b (String c (String d (remove_nbsp post)))))
    with (String a (String b (String c (String d ""))) +:+ remove_nbsp post).
  rewrite <- app_assoc, rstrip_app_space by (by apply remove_nbsp_space).
  apply rstrip_bare. rewrite ends_with_space_app by done. simpl. exact Hd.
Qed.

Lemma strip_upper_token tok :
  String.length tok = 4 ->
  all_chars is_alnum tok = true ->
  strip (upper tok) = upper tok.
Proof.
  intros Hlen Htok. destruct (length4_inv _ Hlen) as (a & b & c & d & ->).
  apply all_chars4 in Htok as (Ha & Hb & Hc & Hd).
  rewrite upper4 by (by apply alnum_not_eszett).
  unfold strip. rewrite lstrip_bare, rstrip_bare; [done| |]; simpl;
    by apply upper_alnum_not_space.
Qed.

(** Lines 41 and 42 on a text that ends in a four-character alphanumeric
    token, possibly followed by white space or non-breaking spaces. *)
Lemma ache_only_trailing_token pre tok post :
  String.length tok = 4 ->
  all_chars is_alnum tok = true ->
  all_chars isspace post = true ->
  AcheOnly.extract_pdb_id (AcheOnly.clean_label (pre +:+ tok +:+ post))
  = Some (upper tok).
Proof.
  intros Hlen Htok Hpost.
  destruct (clean_keeps_token pre tok post Hlen Htok Hpost) as [u ->].
  unfold AcheOnly.extract_pdb_id.
  destruct (length4_inv _ Hlen) as (a & b & c & d & ->).
  pose proof (all_chars4 _ _ _ _ _ Htok) as (Ha & Hb & Hc & Hd).
  rewrite word4_end_suffix by (by apply alnum_is_word). simpl.
  f_equal. by apply (strip_upper_token (String a (String b (String c (String d ""))))).
Qed.

Lemma bare_clean_label raw : ends_with_space (AcheOnly.clean_label raw) = false.
Proof. unfold AcheOnly.clean_label, strip. apply ends_with_space_rstrip. Qed.

(** On a text without trailing white space the anchored pattern finds
    nothing exactly when the text does not end in four word characters. *)
Lemma word4_end_None_iff s :
  ends_with_space s = false ->
  word4_end s = None <-> has_suffix4 is_word s = false.
Proof.
  intros Hbare. unfold has_suffix4, suffix4. split.
  - intros Hnone. apply not_true_is_false. intros [Hlen Hall]%andb_true_iff.
    apply bool_decide_eq_true in Hlen.
    assert (String.length (drop (String.length s - 4) s) = 4) as H4
      by (rewrite length_drop; lia).
    destruct (length4_inv _ H4) as (a & b & c & d & E).
    rewrite E in Hall. apply all_chars4 in Hall as (Ha & Hb & Hc & Hd).
    rewrite <- (take_drop (String.length s - 4) s), E in Hnone.
    by rewrite word4_end_suffix in Hnone.
  - intros Hno. destruct (word4_end s) as [g|] eqn:Hg; [|done]. exfalso.
    apply search_Some in Hg as (u & v & -> & Hv).
    apply four_Some in Hv as (r & -> & Hlen & Hall & Hend).
    assert (r = "") as ->.
    { destruct r as [|c [|??]]; [done| |done]. simpl in Hend.
      rewrite <- app_assoc, ends_with_space_app in Hbare by done.
      simpl in Hbare. apply N.eqb_eq in Hend. revert Hend Hbare.
      clear. each_char c. }
    rewrite app_nil_r in Hno.
    rewrite length_app, Hlen, Nat.add_sub, drop_app_length, Hall in Hno.
    rewrite bool_decide_true in Hno by lia. done.
Qed.

(** Line 42 of [ache_only_extract.py] yields the missing value exactly
    when the cleaned text does not end in four word characters. *)
Lemma ache_only_missing_iff raw :
  AcheOnly.extract_pdb_id (AcheOnly.clean_label raw) = None
  <-> has_suffix4 is_word (AcheOnly.clean_label raw) = false.
Proof.
  rewrite <- (word4_end_None_iff _ (bare_clean_label raw)).
  unfold AcheOnly.extract_pdb_id. by destruct (word4_end _).
Qed.

End NormalizeFacts.

(** ** The loops over the rows *)

Module DriverFacts.
Import Text Regex Py Http Table Notions.

(** The [try] block sends one request, whatever its outcome. *)
Lemma fetch_and_walk_run env pdb_id w :
  fetch_and_walk env pdb_id w
  = (attempt env pdb_id,
     mkWorld (files w) (requests w ++ [download_url (fmt pdb_id)]) (stdout w)).
Proof.
  unfold fetch_and_walk, attempt, mbind, M_bind, bind, requests_get,
    raise_for_status, lift, ret, raise. simpl.
  destruct (remote env _) as [response|e]; [|done].
  destruct (bool_decide _); [done|].
  by destruct (get_structure env _ _).
Qed.

Lemma ache_turn_run env results row w :
  exists out,
    AcheOnly.turn env results row w
    = (Return (results ++ option_list (kept env row)),
       mkWorld (files w) (requests w ++ [url_of row]) out).
Proof.
  unfold AcheOnly.turn, try_except, mbind, M_bind, bind, kept.
  rewrite fetch_and_walk_run.
  destruct (attempt env (PDB_ID row)) as [wk|e]; simpl.
  - by eexists.
  - rewrite app_nil_r. by eexists.
Qed.

Lemma ache_loop_run env rows : forall results w,
  exists out,
    AcheOnly.loop env results rows w
    = (Return (results ++ omap (kept env) rows),
       mkWorld (files w) (requests w ++ (url_of <$> rows)) out).
Proof.
  induction rows as [|row rows IH]; intros results w; simpl.
  - exists (stdout w). unfold ret. rewrite !app_nil_r. by destruct w.
  - unfold mbind, M_bind, bind.
    destruct (ache_turn_run env results row w) as [out ->].
    destruct (IH (results ++ option_list (kept env row))
                 (mkWorld (files w) (requests w ++ [url_of row]) out))
      as [out' ->].
    exists out'. simpl. rewrite <- !app_assoc. simpl.
    by destruct (kept env row).
Qed.

Lemma full_turn_run env results row w :
  exists out,
    MappingFull.turn env results row w
    = (Return (results ++ [recorded env row]),
       mkWorld (files w) (requests w ++ [url_of row]) out).
Proof.
  unfold MappingFull.turn, try_except, mbind, M_bind, bind, recorded.
  rewrite fetch_and_walk_run.
  destruct (attempt env (PDB_ID row)) as [wk|e]; simpl; by eexists.
Qed.

Lemma full_loop_run env rows : forall results w,
  exists out,
    MappingFull.loop env results rows w
    = (Return (results ++ (recorded env <$> rows)),
       mkWorld (files w) (requests w ++ (url_of <$> rows)) out).
Proof.
  induction rows as [|row rows IH]; intros results w; simpl.
  - exists (stdout w). unfold ret. rewrite !app_nil_r. by destruct w.
  - unfold mbind, M_bind, bind.
    destruct (full_turn_run env results row w) as [out ->].
    destruct (IH (results ++ [recorded env row])
                 (mkWorld (files w) (requests w ++ [url_of row]) out))
      as [out' ->].
    exists out'. simpl. by rewrite <- !app_assoc.
Qed.

Lemma split_turn_run env acc row w :
  exists acc' out,
    SplitDual.turn env acc row w
    = (Return acc', mkWorld (files w) (requests w ++ [url_of row]) out).
Proof.
  unfold SplitDual.turn, try_except, mbind, M_bind, bind.
  rewrite fetch_and_walk_run.
  destruct (attempt env (PDB_ID row)) as [wk|e]; simpl; by do 2 eexists.
Qed.

Lemma split_loop_run env rows : forall acc w,
  exists acc' out,
    SplitDual.loop env acc rows w
    = (Return acc', mkWorld (files w) (requests w ++ (url_of <$> rows)) out).
Proof.
  induction rows as [|row rows IH]; intros acc w; simpl.
  - exists acc, (stdout w). unfold ret. rewrite app_nil_r. by destruct w.
  - unfold mbind, M_bind, bind.
    destruct (split_turn_run env acc row w) as (acc1 & out & ->).
    destruct (IH acc1 (mkWorld (files w) (requests w ++ [url_of row]) out))
      as (acc2 & out' & ->).
    exists acc2, out'. simpl. by rewrite <- !app_assoc.
Qed.

(** After [dropna] the frame holds the rows in which the pattern found a
    code, so these are the codes that are requested. *)
Lemma split_load_urls table :
  url_of <$> SplitDual.load table
  = download_url <$> omap (fun i => SplitDual.extract_pdb_id (in_pdb_id i)) table.
Proof.
  unfold SplitDual.load. induction table as [|i table IH]; [done|].
  rewrite fmap_cons, filter_cons. cbn [omap list_omap]. simpl.
  destruct (SplitDual.extract_pdb_id (in_pdb_id i)) as [code|] eqn:E; simpl.
  - unfold url_of at 1. simpl. f_equal. exact IH.
  - exact IH.
Qed.

Lemma length_load_full table : length (MappingFull.load table) = length table.
Proof. unfold MappingFull.load. by rewrite length_fmap. Qed.

End DriverFacts.

(** * The residue classifier and the ligand selector *)

Section Classifier.
Import Text Bio Extract Scenarios Notions.
Import CounterFacts TextFacts ExtractFacts LigandFacts.

(** C1.  For every structure: when the set of ligand candidates is empty
    the chosen ligand is the text None; when it is not empty the chosen
    ligand is one of the candidates, and no candidate occurs in more
    residues than it does. *)
Theorem C1_primary_ligand (s : Structure) :
  (ligand_candidates (walk s) = ∅ -> most_common_ligand (walk s) = "None")
  /\ (ligand_candidates (walk s) ≠ ∅ ->
        most_common_ligand (walk s) ∈ ligand_candidates (walk s)
        /\ (forall c, c ∈ ligand_candidates (walk s) ->
              occurrences c s ≤ occurrences (most_common_ligand (walk s)) s)).
Proof.
  split.
  - intros H%ligand_candidates_empty.
    apply most_common_ligand_none; [apply walk_counts_ligands|done].
  - apply chosen_is_max.
Qed.

Lemma C1_primary_ligand_witness :
  most_common_ligand (walk scenario_C) ∈ ligand_candidates (walk scenario_C)
  /\ most_common_ligand (walk scenario_B) = "None".
Proof.
  split.
  - apply (C1_primary_ligand scenario_C). vm_compute. discriminate.
  - apply (C1_primary_ligand scenario_B). vm_compute. reflexivity.
Defined.

(** C3.  For every structure the candidate names are among the recorded
    residue names; every residue's name is recorded; and a heteroatom
    group with a solvent name is recorded without becoming a
    candidate. *)
Theorem C3_candidates_subset (s : Structure) :
  ligand_candidates (walk s) ⊆ all_residues (walk s)
  /\ (forall r, r ∈ residues s -> name_of r ∈ all_residues (walk s))
  /\ (forall r, r ∈ residues s -> is_heteroatom r = true ->
        name_of r ∈ SOLVENTS ->
        name_of r ∈ all_residues (walk s)
        /\ name_of r ∉ ligand_candidates (walk s)).
Proof.
  assert (forall r, r ∈ residues s -> name_of r ∈ all_residues (walk s)) as Hall.
  { intros r Hr. rewrite walk_all. apply elem_of_list_to_set.
    by apply list_elem_of_fmap_2. }
  split_and!; [|done|].
  - intros n Hn. unfold ligand_candidates in Hn.
    apply elem_of_list_to_set in Hn. rewrite walk_ligands in Hn.
    apply elem_of_candidate_names in Hn as (r & Hr & _ & <-). by apply Hall.
  - intros r Hr _ Hs. split; [by apply Hall|].
    unfold ligand_candidates. rewrite elem_of_list_to_set.
    by apply no_solvent_candidate.
Qed.

Lemma C3_candidates_subset_witness :
  "HOH" ∈ all_residues (walk scenario_A)
  /\ "HOH" ∉ ligand_candidates (walk scenario_A).
Proof.
  apply (proj2 (proj2 (C3_candidates_subset scenario_A)) (water 301)).
  - vm_compute. do 2 right. left.
  - reflexivity.
  - vm_compute. reflexivity.
Defined.

(** C7.  The counter of a name is the number of residues that are
    heteroatom groups, have that stripped name and are not solvent; the
    atoms of a residue play no part in the walk; and a structure whose
    candidates are JQ1 in two residues and UNL in five has UNL chosen. *)
Theorem C7_residue_granularity :
  (forall s name,
      Counter.get (residue_counts (walk s)) name = occurrences name s)
  /\ (forall s, walk (map_residues forget_atoms s) = walk s)
  /\ (forall s,
        ligand_candidates (walk s) = {[ "JQ1"; "UNL" ]} ->
        occurrences "JQ1" s = 2 ->
        occurrences "UNL" s = 5 ->
        most_common_ligand (walk s) = "UNL").
Proof.
  split_and!.
  - apply counts_are_occurrences.
  - intros s. apply walk_map_residues. by intros w [n i a].
  - intros s Hset Hj Hu.
    destruct (chosen_is_max s) as [Hin Hmax]; [by rewrite Hset|].
    specialize (Hmax "UNL"). rewrite Hset in Hin, Hmax.
    apply elem_of_union in Hin as [Hin%elem_of_singleton|Hin%elem_of_singleton];
      [|done].
    rewrite Hin, Hj, Hu in Hmax. assert (5 ≤ 2) by (apply Hmax; set_solver). lia.
Qed.

Lemma C7_residue_granularity_witness :
  most_common_ligand (walk scenario_C) = "UNL".
Proof.
  apply (proj2 (proj2 C7_residue_granularity) scenario_C);
    vm_compute; reflexivity.
Defined.

(** The tie of [scenario_tie]: TRS and ACT both occur twice, TRS first. *)
Example tie_goes_to_first :
  most_common_ligand (walk scenario_tie) = "TRS"
  /\ occurrences "TRS" scenario_tie = occurrences "ACT" scenario_tie.
Proof. by vm_compute. Qed.

(** C10.  The name recorded, tested against the solvents and counted is
    the stripped residue name: no recorded name, candidate or counter key
    has white space at either end, and a structure is walked exactly as
    the structure whose residue names are already stripped.  The names
    kept by the line scanner of [realligand_mapping.py] are stripped as
    well. *)
Theorem C10_names_are_stripped :
  (forall s n,
      n ∈ all_residues (walk s) ∪ ligand_candidates (walk s)
          ∪ list_to_set (keys (residue_counts (walk s))) ->
      bare n = true /\ strip n = n)
  /\ (forall s, walk (map_residues stripped s) = walk s)
  /\ (forall lines n, n ∈ RealLigand.scan lines -> bare n = true /\ strip n = n).
Proof.
  assert (forall x, bare (strip x) = true /\ strip (strip x) = strip x) as Hs
    by (intros x; split; [apply bare_strip|apply strip_idem]).
  split_and!.
  - intros s n Hn.
    assert (n ∈ name_of <$> residues s) as Hin.
    { rewrite walk_all, walk_counts in Hn. unfold ligand_candidates in Hn.
      rewrite walk_ligands in Hn.
      rewrite !elem_of_union, !elem_of_list_to_set, elem_of_keys_tally in Hn.
      destruct Hn as [[Hn|Hn]|Hn]; [done| |];
        apply elem_of_candidate_names in Hn as (r & Hr & _ & <-);
        by apply list_elem_of_fmap_2. }
    apply list_elem_of_fmap in Hin as (r & -> & _). apply Hs.
  - intros s. apply walk_map_residues, visit_stripped.
  - intros lines n. unfold RealLigand.scan.
    assert (forall acc : gset string,
               (forall x, x ∈ acc -> bare x = true /\ strip x = x) ->
               n ∈ foldl RealLigand.scan_line acc lines ->
               bare n = true /\ strip n = n) as Hgen.
    { induction lines as [|l lines IH]; intros acc Hacc; simpl; [by apply Hacc|].
      apply IH. intros x. unfold RealLigand.scan_line.
      destruct (startswith _ l); [|by apply Hacc].
      destruct (_ && _); [|by apply Hacc].
      intros [Hx| ->%elem_of_singleton]%elem_of_union; [by apply Hacc|apply Hs]. }
    apply Hgen. set_solver.
Qed.

(** A chloride ion whose name comes padded from the fixed columns is
    treated as the token CL: recorded, and not a candidate. *)
Example padded_chloride :
  all_residues (walk scenario_B) = {[ "GLY"; "SER"; "CL"; "HOH" ]}
  /\ ligand_candidates (walk scenario_B) = ∅.
Proof. by vm_compute. Qed.

Lemma C10_names_are_stripped_witness :
  bare "CL" = true /\ strip "CL" = "CL".
Proof.
  apply (proj1 C10_names_are_stripped scenario_B "CL").
  refine (bool_decide_unpack _ _). vm_compute. exact I.
Defined.

End Classifier.

(** * Exclusion sets across the scripts *)

Section Exclusion.
Import Text Extract Scenarios.

(** C2.  The set [exclude_resnames] of [realligand_mapping.py] lacks the
    token WAT that [SOLVENTS] holds in the other scripts, so the two sets
    differ, and on a file with a HETATM line of a WAT residue the scanner
    puts WAT among the ligands and stores it as the ligand of the entry. *)
Theorem C2_realligand_keeps_WAT :
  "WAT" ∈ SOLVENTS
  /\ ("WAT" ∉ RealLigand.exclude_resnames)
  /\ (RealLigand.exclude_resnames ≠ SOLVENTS)
  /\ slice 17 20 wat_line = "WAT"
  /\ RealLigand.scan [wat_line] = {[ "WAT" ]}
  /\ RealLigand.Ligand_Resname (RealLigand.scan [wat_line]) = Some "WAT".
Proof.
  split_and!.
  - refine (bool_decide_unpack _ _). by vm_compute.
  - refine (bool_decide_unpack _ _). by vm_compute.
  - refine (bool_decide_unpack _ _). by vm_compute.
  - reflexivity.
  - by vm_compute.
  - by vm_compute.
Qed.

End Exclusion.

(** * The identifier normalizer *)

Section Identifiers.
Import Text Regex Py Http Table Scenarios Notions NormalizeFacts DriverFacts.

(** C4.  The pattern of [extract_ligands_split_dual.py] is not anchored at
    the end: on a text whose prefix holds four word characters it returns
    that prefix, upper-cased, and not the trailing token, which lines 41
    and 42 of [ache_only_extract.py] return on the same text. *)
Theorem C4_split_dual_first_run :
  SplitDual.extract_pdb_id "AChE 4ey7" = Some "ACHE"
  /\ AcheOnly.extract_pdb_id (AcheOnly.clean_label "AChE 4ey7") = Some "4EY7".
Proof. split; reflexivity. Qed.

(** The missing value, and no error, on a text without a four-character
    suffix; the loop of [ache_only_extract.py] then requests the file of
    the code nan. *)
Lemma C5_counterexample :
  AcheOnly.load [mkInput "AChE_001" "4EY"] = [mkRow "AChE_001" "4EY" None]
  /\ requests (AcheOnly.main offline [mkInput "AChE_001" "4EY"] empty_world).2
     = ["https://files.rcsb.org/download/nan.pdb"].
Proof. split; reflexivity. Qed.

(** C5.  For every raw identifier whose cleaned text does not end in four
    word characters, lines 41 and 42 of [ache_only_extract.py] yield the
    missing value, and conversely.  In [extract_ligands_split_dual.py] the
    rows with a missing code are dropped before the loop: the run ends
    normally and the requests it sends are exactly the ones for the codes
    that the pattern found, in row order. *)
Theorem C5_missing_code :
  (forall raw,
      has_suffix4 is_word (AcheOnly.clean_label raw) = false <->
      AcheOnly.extract_pdb_id (AcheOnly.clean_label raw) = None)
  /\ (forall env table w,
        exists acc out,
          SplitDual.main env table w
          = (Return acc,
             mkWorld (files w)
               (requests w
                  ++ (download_url
                        <$> omap (fun i => SplitDual.extract_pdb_id (in_pdb_id i))
                              table))
               out)).
Proof.
  split.
  - intros raw. symmetry. apply ache_only_missing_iff.
  - intros env table w. unfold SplitDual.main.
    destruct (split_loop_run env (SplitDual.load table) ([], []) w)
      as (acc & out & ->).
    exists acc, out. by rewrite split_load_urls.
Qed.

Lemma C5_missing_code_witness :
  AcheOnly.extract_pdb_id (AcheOnly.clean_label "4EY") = None.
Proof. apply (proj1 C5_missing_code "4EY"). reflexivity. Defined.

End Identifiers.

(** * The batch drivers *)

Section Batch.
Import Text Py Http Table Scenarios Notions DriverFacts.

(** One row whose download fails: [ache_only_extract.py] ends with an empty
    table, so the failed row is not in the output. *)
Lemma C6_counterexample :
  (AcheOnly.main offline [mkInput "AChE_001" "4EY7"] empty_world).1 = Return [].
Proof. reflexivity. Qed.

(** C6.  Neither driver stops at a row that fails, and both go through the
    rows in input order.  [ligand_mapping_full.py] ends with one row for
    every input row, and the row of a failed record carries the text Error
    followed by the message in the ligand column and N/A in the other two;
    [ache_only_extract.py] ends with one row for every input row whose
    download and parse succeeded, and none for the others. *)
Theorem C6_partial_failure (env : Outside) (table : list Input) (w : World) :
  (exists w',
      MappingFull.main env table w
      = (Return (recorded env <$> MappingFull.load table), w'))
  /\ length (recorded env <$> MappingFull.load table) = length table
  /\ (forall row e,
        attempt env (PDB_ID row) = Raise e ->
        recorded env row
        = mkResult (Unique_ID row) (PDB_ID_label row) (PDB_ID row)
            ("Error: " +:+ e) "N/A" "N/A")
  /\ (exists w',
        AcheOnly.main env table w
        = (Return (omap (kept env) (AcheOnly.load table)), w'))
  /\ (forall row e, attempt env (PDB_ID row) = Raise e -> kept env row = None).
Proof.
  split_and!.
  - unfold MappingFull.main.
    destruct (full_loop_run env (MappingFull.load table) [] w) as [out ->].
    by eexists.
  - by rewrite length_fmap, length_load_full.
  - intros row e He. unfold recorded. by rewrite He.
  - unfold AcheOnly.main.
    destruct (ache_loop_run env (AcheOnly.load table) [] w) as [out ->].
    by eexists.
  - intros row e He. unfold kept. by rewrite He.
Qed.

Lemma C6_partial_failure_witness :
  recorded one_entry (mkRow "AChE_002" "1XYZ" (Some "1XYZ"))
  = mkResult "AChE_002" "1XYZ" (Some "1XYZ")
      "Error: 404 Client Error: Not Found" "N/A" "N/A".
Proof.
  apply (proj1 (proj2 (proj2
           (C6_partial_failure one_entry [] empty_world)))
           (mkRow "AChE_002" "1XYZ" (Some "1XYZ"))).
  reflexivity.
Defined.

(** A table of two rows, the second of which is not in the repository. *)
Example two_rows :
  (MappingFull.main one_entry
     [mkInput "AChE_001" " 4ey7"; mkInput "AChE_002" "1XYZ"] empty_world).1
  = Return
      [mkResult "AChE_001" "4ey7" (Some "4EY7") "7QZ" "7QZ" "7QZ, ALA, HOH";
       mkResult "AChE_002" "1XYZ" (Some "1XYZ")
         "Error: 404 Client Error: Not Found" "N/A" "N/A"]
  /\ (AcheOnly.main one_entry
        [mkInput "AChE_001" " 4ey7"; mkInput "AChE_002" "1XYZ"] empty_world).1
     = Return
         [mkResult "AChE_001" "4ey7" (Some "4EY7") "7QZ" "7QZ" "7QZ, ALA, HOH"].
Proof. split; by vm_compute. Qed.

End Batch.

(** * The download cache *)

Section Download.
Import Text Py Http Cache Scenarios Notions.

(** The three ways the step can go. *)
Lemma ensure_pdb_hit env pdb_id w :
  is_Some (files w !! pdb_local_path pdb_id) ->
  ensure_pdb env pdb_id w
  = (Return (pdb_local_path pdb_id),
     mkWorld (files w) (requests w)
       (stdout w ++ ["Using cached PDB file: " +:+ (pdb_id +:+ ".pdb")])).
Proof.
  intros Hin. unfold ensure_pdb, mbind, M_bind, bind, path_exists.
  by rewrite bool_decide_true.
Qed.

Lemma ensure_pdb_miss env pdb_id w :
  files w !! pdb_local_path pdb_id = None ->
  ensure_pdb env pdb_id w
  = let w1 := mkWorld (files w) (requests w ++ [download_url pdb_id])
                (stdout w ++ ["Downloading PDB file from: " +:+ download_url pdb_id]) in
    match remote env (download_url pdb_id) with
    | Raise e => (Raise e, w1)
    | Return response =>
        if bool_decide (400 ≤ status_code response < 600)
        then (Raise (http_error env response), w1)
        else (Return (pdb_local_path pdb_id),
              mkWorld (<[pdb_local_path pdb_id := text response]> (files w))
                (requests w1) (stdout w1))
    end.
Proof.
  intros Hout. unfold ensure_pdb, mbind, M_bind, bind, path_exists.
  rewrite bool_decide_false by (rewrite Hout; by intros [? ?]).
  unfold print, requests_get, raise_for_status, write_text, ret, raise. simpl.
  destruct (remote env _) as [response|e]; [|done].
  by destruct (bool_decide _).
Qed.

End Download.

(** * More on the residue walk *)

Module WalkFacts.
Import Text Bio Extract Notions MoreNotions.
Import CounterFacts TextFacts ExtractFacts LigandFacts.

Lemma total_incr k c : total (Counter.incr k c) = S (total c).
Proof.
  unfold total. induction c as [|[k' n] c IH]; simpl; [done|].
  destruct (String.eqb k' k); simpl; [done|].
  rewrite <- Nat.add_succ_r. f_equal. exact IH.
Qed.

Lemma total_tally l : total (tally l) = length l.
Proof.
  induction l as [|x l IH] using rev_ind; [done|].
  rewrite tally_snoc, total_incr, IH, length_app. simpl. lia.
Qed.

Lemma item_of_key c k : k ∈ keys c -> (k, Counter.get c k) ∈ c.
Proof.
  unfold keys. induction c as [|[k' n] c IH]; simpl; intros Hin.
  - by apply elem_of_nil in Hin.
  - destruct (String.eqb k' k) eqn:E.
    + apply String.eqb_eq in E as ->. left.
    + right. apply IH. apply elem_of_cons in Hin as [->|Hin]; [|done].
      by rewrite String.eqb_refl in E.
Qed.

Lemma occ_pos k l : k ∈ l -> 1 ≤ occ k l.
Proof.
  intros Hin. unfold occ.
  assert (k ∈ filter (fun x => x = k) l) as H
    by (by apply list_elem_of_filter).
  destruct (filter _ l); [by apply elem_of_nil in H|simpl; lia].
Qed.

Lemma candidate_names_app rs1 rs2 :
  candidate_names (rs1 ++ rs2) = candidate_names rs1 ++ candidate_names rs2.
Proof. unfold candidate_names. by rewrite filter_app, fmap_app. Qed.

Lemma residues_app s1 s2 : residues (s1 ++ s2) = residues s1 ++ residues s2.
Proof. unfold residues. by rewrite !concat_app. Qed.

Lemma not_counted_iff rs :
  candidate_names rs = [] <->
  forall r, r ∈ rs -> is_heteroatom r = false \/ name_of r ∈ SOLVENTS.
Proof.
  split.
  - intros Hnil r Hr.
    destruct (is_heteroatom r) eqn:Hh; [|by left]. right.
    destruct (decide (name_of r ∈ SOLVENTS)) as [|Hn]; [done|]. exfalso.
    assert (name_of r ∈ candidate_names rs) as Hin.
    { apply elem_of_candidate_names. exists r. split_and!; [done| |done].
      unfold counted. by rewrite Hh, bool_decide_true. }
    rewrite Hnil in Hin. by apply elem_of_nil in Hin.
  - intros Hall. apply elem_of_nil_inv. intros n Hn.
    apply elem_of_candidate_names in Hn as (r & Hr & Hc & _).
    unfold counted in Hc. apply andb_true_iff in Hc as [Hh Hs].
    apply bool_decide_eq_true in Hs.
    destruct (Hall r Hr) as [E|E]; [congruence|done].
Qed.

Lemma thevisit_sets acc r :
  TheLigand.visit acc r =
    if counted r
    then TheLigand.mkSets (TheLigand.ligands acc ∪ {[ name_of r ]})
           (TheLigand.all_residues acc ∪ {[ name_of r ]})
    else TheLigand.mkSets (TheLigand.ligands acc)
           (TheLigand.all_residues acc ∪ {[ name_of r ]}).
Proof.
  unfold TheLigand.visit, counted, is_heteroatom, name_of, hetfield.
  assert (startswith "H_" (id r).1.1 || negb (String.eqb (id r).1.1 " ")
          = negb (String.eqb (id r).1.1 " ")) as ->.
  { destruct (String.eqb_spec (id r).1.1 " ") as [->|]; [done|].
    apply orb_true_r. }
  destruct (negb _); simpl; [|done].
  change TheLigand.solvents with SOLVENTS. by destruct (bool_decide _).
Qed.

Lemma thewalk_flat s :
  TheLigand.walk s = foldl TheLigand.visit TheLigand.start (residues s).
Proof.
  unfold TheLigand.walk, residues.
  rewrite (foldl_concat (fun acc chain => foldl TheLigand.visit acc chain)
             (fun acc model =>
                foldl (fun acc chain => foldl TheLigand.visit acc chain) acc model));
    [|done].
  by rewrite (foldl_concat TheLigand.visit
                (fun acc chain => foldl TheLigand.visit acc chain)).
Qed.

Lemma thefold_sets rs acc :
  foldl TheLigand.visit acc rs
  = TheLigand.mkSets
      (TheLigand.ligands acc ∪ list_to_set (candidate_names rs))
      (TheLigand.all_residues acc ∪ list_to_set (name_of <$> rs)).
Proof.
  revert acc. induction rs as [|r rs IH]; intros [L A]; simpl.
  - unfold candidate_names. simpl. f_equal; set_solver.
  - rewrite IH, thevisit_sets, candidate_names_cons.
    destruct (counted r); simpl; f_equal; set_solver.
Qed.

End WalkFacts.

Section MoreWalk.
Import Text Bio Extract Scenarios MoreScenarios Notions MoreNotions.
Import CounterFacts TextFacts ExtractFacts LigandFacts WalkFacts.

(** X1.  The walk sees only the sequence of residues: two structures with
    the same residues in the same order, grouped into chains and models in
    any way, are walked to the same result; and over two structures put
    one after the other the counts add up, the lists of counted names
    follow each other and the recorded names are united. *)
Theorem walk_regrouping :
  (forall s1 s2, residues s1 = residues s2 -> walk s1 = walk s2)
  /\ (forall s1 s2 name,
        occurrences name (s1 ++ s2) = occurrences name s1 + occurrences name s2)
  /\ (forall s1 s2,
        ligands (walk (s1 ++ s2)) = ligands (walk s1) ++ ligands (walk s2)
        /\ all_residues (walk (s1 ++ s2))
           = all_residues (walk s1) ∪ all_residues (walk s2)).
Proof.
  split_and!.
  - intros s1 s2 E. by rewrite !walk_flat, E.
  - intros s1 s2 name. unfold occurrences.
    by rewrite residues_app, filter_app, length_app.
  - intros s1 s2. split.
    + by rewrite !walk_ligands, residues_app, candidate_names_app.
    + rewrite !walk_all, residues_app, fmap_app. set_solver.
Qed.

Lemma walk_regrouping_witness : walk scenario_C_flat = walk scenario_C_split.
Proof. apply (proj1 walk_regrouping). reflexivity. Defined.

(** X2.  A structure has no ligand candidate exactly when each of its
    residues is a polymer residue or carries a solvent name; the ligand
    column and the candidate column of its row then both read None. *)
Theorem no_candidates_iff (s : Structure) :
  (ligand_candidates (walk s) = ∅ <->
   forall r, r ∈ residues s -> is_heteroatom r = false \/ name_of r ∈ SOLVENTS)
  /\ (ligand_candidates (walk s) = ∅ ->
      col_ligand (columns (walk s)) = "None"
      /\ col_candidates (columns (walk s)) = "None").
Proof.
  split.
  - rewrite ligand_candidates_empty, walk_ligands. apply not_counted_iff.
  - intros H%ligand_candidates_empty. unfold columns. simpl. rewrite H.
    split; [|done].
    apply most_common_ligand_none; [apply walk_counts_ligands|done].
Qed.

Lemma no_candidates_iff_witness :
  col_ligand (columns (walk scenario_B)) = "None"
  /\ col_candidates (columns (walk scenario_B)) = "None".
Proof. apply (proj2 (no_candidates_iff scenario_B)). by vm_compute. Defined.

(** X3.  After the walk the counter holds every candidate exactly once as
    a key and nothing else, every count is at least one and is the number
    of residues counted under that name, and the counts sum to the length
    of the list [ligands]. *)
Theorem counter_invariant (s : Structure) :
  NoDup (keys (residue_counts (walk s)))
  /\ (forall k, k ∈ keys (residue_counts (walk s)) <-> k ∈ ligand_candidates (walk s))
  /\ (forall k n, (k, n) ∈ residue_counts (walk s) ->
        1 ≤ n /\ n = occurrences k s)
  /\ total (residue_counts (walk s)) = length (ligands (walk s)).
Proof.
  pose proof (walk_counts_ligands s) as Hc.
  assert (NoDup (keys (residue_counts (walk s)))) as Hnd
    by (rewrite Hc; apply NoDup_keys_tally).
  split_and!; [done| | |].
  - intros k. unfold ligand_candidates.
    by rewrite Hc, elem_of_keys_tally, elem_of_list_to_set.
  - intros k n Hin. pose proof (get_of_item _ _ _ Hnd Hin) as Hget.
    rewrite <- Hget, counts_are_occurrences. split; [|done].
    rewrite <- counts_are_occurrences, Hc, get_tally. apply occ_pos.
    apply elem_of_keys_tally. rewrite <- Hc.
    apply list_elem_of_fmap. by exists (k, n).
  - by rewrite Hc at 1; rewrite total_tally.
Qed.

Lemma counter_invariant_witness : 1 ≤ 2 /\ 2 = occurrences "JQ1" scenario_C.
Proof.
  apply (proj1 (proj2 (proj2 (counter_invariant scenario_C))) "JQ1" 2).
  vm_compute. left.
Defined.

(** X4.  The names listed in the candidate column and in the residue
    column are the members of the set, each once, in ascending order; when
    there is a candidate the chosen ligand is among the listed ones. *)
Theorem sorted_columns (s : Structure) :
  (forall X : gset string,
      Sorted String.le (sorted X) /\ NoDup (sorted X)
      /\ (forall n, n ∈ sorted X <-> n ∈ X))
  /\ (ligand_candidates (walk s) ≠ ∅ ->
      most_common_ligand (walk s) ∈ sorted (ligand_candidates (walk s))).
Proof.
  assert (forall X : gset string, forall n, n ∈ sorted X <-> n ∈ X) as Hel.
  { intros X n. unfold sorted. rewrite merge_sort_Permutation.
    apply elem_of_elements. }
  split.
  - intros X. split_and!; [| |apply Hel].
    + apply (Sorted_merge_sort String.le).
    + unfold sorted. rewrite merge_sort_Permutation. apply NoDup_elements.
  - intros Hne. apply Hel. by apply chosen_is_max.
Qed.

Lemma sorted_columns_witness :
  most_common_ligand (walk scenario_C) ∈ sorted (ligand_candidates (walk scenario_C)).
Proof. apply (proj2 (sorted_columns scenario_C)). vm_compute. discriminate. Defined.

(** X5.  [theligand_mapping.py] finds the same sets as the walk of the
    batch scripts: its test of the prefix H_ adds nothing to the test
    against the single space, its ligands are the candidates and its
    residues the recorded names, so its ligand cell is the candidate
    column of the batch row. *)
Theorem theligand_agrees (s : Structure) :
  TheLigand.walk s
  = TheLigand.mkSets (ligand_candidates (walk s)) (all_residues (walk s))
  /\ TheLigand.ligand_cell (TheLigand.walk s) = col_candidates (columns (walk s))
  /\ TheLigand.residue_cell (TheLigand.walk s) = col_residues (columns (walk s)).
Proof.
  assert (TheLigand.walk s
          = TheLigand.mkSets (ligand_candidates (walk s)) (all_residues (walk s)))
    as Hw.
  { rewrite thewalk_flat, thefold_sets. unfold ligand_candidates.
    rewrite walk_ligands, walk_all. simpl. f_equal; set_solver. }
  split_and!; [done| |].
  - rewrite Hw. unfold TheLigand.ligand_cell, columns. simpl.
    destruct (ligands (walk s)) as [|x l] eqn:E.
    + rewrite bool_decide_true; [done|]. by apply ligand_candidates_empty.
    + rewrite bool_decide_false; [done|].
      intros H%ligand_candidates_empty. congruence.
  - by rewrite Hw.
Qed.

End MoreWalk.

(** * More on the identifier clean-up *)

Module NormalizeMore.
Import Text Regex Notions MoreNotions TextFacts NormalizeFacts.

Lemma ascii_word_upper c :
  is_ascii c = true -> is_word c = true -> code_char (upper_char c) = true.
Proof. each_char c. Qed.

Lemma code_char_word c : code_char c = true -> is_word c = true.
Proof. each_char c. Qed.

Lemma code_char_not_space c : code_char c = true -> isspace c = false.
Proof. each_char c. Qed.

Lemma code_char_not_nbsp c : code_char c = true -> N.eqb (code c) 160 = false.
Proof. each_char c. Qed.

Lemma code_char_upper c : code_char c = true -> upper_char c = c.
Proof. each_char c. Qed.

Lemma ascii_not_eszett c : is_ascii c = true -> N.eqb (code c) 223 = false.
Proof. each_char c. Qed.

Lemma code_char_not_eszett c : code_char c = true -> N.eqb (code c) 223 = false.
Proof. each_char c. Qed.

Lemma alnum_not_space c : is_alnum c = true -> isspace c = false.
Proof. each_char c. Qed.

Lemma alnum_not_newline c : is_alnum c = true -> N.eqb (code c) 10 = false.
Proof. each_char c. Qed.

Lemma all_chars_app p a b :
  all_chars p (a +:+ b) = all_chars p a && all_chars p b.
Proof.
  induction a as [|x a IH]; [done|]. rewrite app_cons. simpl.
  by rewrite IH, andb_assoc.
Qed.

Lemma all_chars_lstrip p s : all_chars p s = true -> all_chars p (lstrip s) = true.
Proof.
  induction s as [|c s IH]; simpl; [done|].
  intros [Hc Hs]%andb_true_iff. destruct (isspace c); [by apply IH|].
  simpl. by rewrite Hc, Hs.
Qed.

Lemma all_chars_rstrip p s : all_chars p s = true -> all_chars p (rstrip s) = true.
Proof.
  induction s as [|c s IH]; simpl; [done|].
  intros [Hc Hs]%andb_true_iff. specialize (IH Hs).
  destruct (rstrip s) as [|a r].
  - destruct (isspace c); simpl; [done|]. by rewrite Hc.
  - simpl in *. by rewrite Hc, IH.
Qed.

Lemma all_chars_remove_nbsp p s :
  all_chars p s = true -> all_chars p (remove_nbsp s) = true.
Proof.
  induction s as [|c s IH]; simpl; [done|].
  intros [Hc Hs]%andb_true_iff.
  destruct (N.eqb (code c) 160); simpl; [by apply IH|]. by rewrite Hc, IH.
Qed.

Lemma all_chars_clean p raw :
  all_chars p raw = true -> all_chars p (AcheOnly.clean_label raw) = true.
Proof.
  intros H. unfold AcheOnly.clean_label, strip.
  by apply all_chars_rstrip, all_chars_lstrip, all_chars_remove_nbsp.
Qed.

(** What a pattern of four characters finds is a piece of the text. *)
Lemma search_four_Some cls rest s g :
  search (four cls rest) s = Some g ->
  exists u r, s = u +:+ g +:+ r /\ String.length g = 4
              /\ all_chars cls g = true /\ rest r = true.
Proof.
  intros (u & v & -> & Hv)%search_Some.
  apply four_Some in Hv as (r & -> & ? & ? & ?). by exists u, r.
Qed.

(** The upper-cased group of an ASCII text: four code characters, which
    the last [strip] of line 42 leaves alone. *)
Lemma upper_group g :
  String.length g = 4 ->
  all_chars is_word g = true ->
  all_chars is_ascii g = true ->
  String.length (upper g) = 4
  /\ all_chars code_char (upper g) = true
  /\ strip (upper g) = upper g.
Proof.
  intros Hlen Hw Ha. destruct (length4_inv _ Hlen) as (a & b & c & d & ->).
  apply all_chars4 in Hw as (? & ? & ? & ?).
  apply all_chars4 in Ha as (? & ? & ? & ?).
  assert (code_char (upper_char a) = true) by (by apply ascii_word_upper).
  assert (code_char (upper_char d) = true) by (by apply ascii_word_upper).
  rewrite upper4 by (by apply ascii_not_eszett).
  split_and!; [done| |].
  - simpl. by rewrite !ascii_word_upper.
  - unfold strip. rewrite lstrip_bare, rstrip_bare; [done| |]; simpl;
      by apply code_char_not_space.
Qed.

Lemma found_code_shape cls rest label g :
  (forall c, cls c = true -> is_word c = true) ->
  all_chars is_ascii label = true ->
  search (four cls rest) label = Some g ->
  String.length (upper g) = 4
  /\ all_chars code_char (upper g) = true
  /\ strip (upper g) = upper g.
Proof.
  intros Hcls Ha (u & r & -> & Hlen & Hall & _)%search_four_Some.
  rewrite !all_chars_app in Ha.
  apply andb_true_iff in Ha as [_ [Ha _]%andb_true_iff].
  apply upper_group; [done| |done]. by apply (all_chars_impl cls).
Qed.

Lemma ache_code_shape label code :
  all_chars is_ascii label = true ->
  AcheOnly.extract_pdb_id label = Some code ->
  String.length code = 4 /\ all_chars code_char code = true.
Proof.
  intros Ha H. unfold AcheOnly.extract_pdb_id, word4_end in H.
  destruct (search _ label) as [g|] eqn:Hg; [|done].
  destruct (found_code_shape _ _ _ _ (fun c H => H) Ha Hg) as (? & ? & Hs).
  simpl in H. rewrite Hs in H. by injection H as <-.
Qed.

Lemma upper_code s : all_chars code_char s = true -> upper s = s.
Proof.
  induction s as [|c s IH]; [done|]. cbn [all_chars].
  intros [Hc Hs]%andb_true_iff.
  rewrite upper_cons by (by apply code_char_not_eszett).
  by rewrite (code_char_upper _ Hc), IH.
Qed.

Lemma remove_nbsp_code s : all_chars code_char s = true -> remove_nbsp s = s.
Proof.
  induction s as [|c s IH]; simpl; [done|].
  intros [Hc Hs]%andb_true_iff. by rewrite (code_char_not_nbsp _ Hc), IH.
Qed.

(** A found code goes through lines 41 and 42 unchanged. *)
Lemma code_is_fixed code :
  String.length code = 4 ->
  all_chars code_char code = true ->
  AcheOnly.extract_pdb_id (AcheOnly.clean_label code) = Some code.
Proof.
  intros Hlen Hall. destruct (length4_inv _ Hlen) as (a & b & c & d & ->).
  pose proof (all_chars4 _ _ _ _ _ Hall) as (Ha & Hb & Hc & Hd).
  unfold AcheOnly.clean_label. rewrite remove_nbsp_code by done.
  assert (strip (String a (String b (String c (String d ""))))
          = String a (String b (String c (String d "")))) as Hs.
  { unfold strip. rewrite lstrip_bare, rstrip_bare; [done| |]; simpl;
      by apply code_char_not_space. }
  rewrite Hs. unfold AcheOnly.extract_pdb_id.
  pose proof (word4_end_suffix "" a b c d (code_char_word _ Ha)
                (code_char_word _ Hb) (code_char_word _ Hc)
                (code_char_word _ Hd)) as Hw.
  rewrite app_nil_l in Hw. rewrite Hw. cbn [fmap option_fmap option_map].
  rewrite upper4 by (by apply code_char_not_eszett).
  rewrite !code_char_upper by done. by rewrite Hs.
Qed.

(** The anchored pattern of any class that excludes the newline. *)
Lemma four_end_suffix cls u a b c d :
  (forall x, cls x = true -> N.eqb (code x) 10 = false) ->
  cls a = true -> cls b = true -> cls c = true -> cls d = true ->
  search (four cls at_end) (u +:+ String a (String b (String c (String d ""))))
  = Some (String a (String b (String c (String d "")))).
Proof.
  intros Hnl Ha Hb Hc Hd. pose proof (Hnl _ Hd) as Hn.
  induction u as [|x u IH].
  - rewrite app_nil_l. simpl. by rewrite Ha, Hb, Hc, Hd.
  - rewrite app_cons. cbn [search]. rewrite IH.
    assert (four cls at_end
              (String x (u +:+ String a (String b (String c (String d "")))))
            = None) as ->; [|done].
    destruct u as [|y [|z [|t [|v u]]]]; rewrite ?app_cons, ?app_nil_l; simpl;
      rewrite ?Hn, ?andb_false_r; try done.
    destruct u as [|? [|? ?]]; rewrite ?app_cons, ?app_nil_l; simpl;
      by rewrite ?andb_false_r.
Qed.

Lemma final_app s t : t ≠ "" -> final (s +:+ t) = final t.
Proof.
  intros Ht. induction s as [|c s IH]; [done|].
  rewrite app_cons. simpl. destruct (s +:+ t) eqn:E; [|done].
  destruct s; [by rewrite app_nil_l in E|by rewrite app_cons in E].
Qed.

Lemma chop_app s t : t ≠ "" -> chop (s +:+ t) = s +:+ chop t.
Proof.
  intros Ht. induction s as [|c s IH]; [done|].
  rewrite !app_cons. simpl. destruct (s +:+ t) eqn:E; [|by rewrite IH].
  destruct s; [by rewrite app_nil_l in E|by rewrite app_cons in E].
Qed.

Lemma final_all_chars p s c :
  all_chars p s = true -> final s = Some c -> p c = true.
Proof.
  induction s as [|x s IH]; simpl; [done|].
  intros [Hx Hs]%andb_true_iff. destruct s; [by intros [= <-]|by apply IH].
Qed.

Lemma all_chars_chop p s : all_chars p s = true -> all_chars p (chop s) = true.
Proof.
  induction s as [|x s IH]; simpl; [done|].
  intros [Hx Hs]%andb_true_iff. destruct s; [done|].
  specialize (IH Hs). simpl in *. by rewrite Hx, IH.
Qed.

Lemma final_is_Some s : s ≠ "" -> is_Some (final s).
Proof.
  induction s as [|x s IH]; [done|]. intros _. simpl.
  destruct s; [by eexists|by apply IH].
Qed.

Lemma chop_nil_inv s c : chop s = "" -> final s = Some c -> s = String c "".
Proof. destruct s as [|x [|y s]]; simpl; [done| |done]. by intros _ [= ->]. Qed.

(** The anchored pattern finds nothing in a text that ends in white space,
    a single final newline apart. *)
Lemma four_end_padded cls s post :
  (forall x, cls x = true -> isspace x = false) ->
  all_chars isspace post = true -> post ≠ "" -> post ≠ String "010" "" ->
  search (four cls at_end) (s +:+ post) = None.
Proof.
  intros Hcls Hsp Hne Hnl.
  destruct (search _ _) as [g|] eqn:Hg; [|done]. exfalso.
  apply search_four_Some in Hg as (u & r & Heq & Hlen & Hall & Hend).
  destruct (length4_inv _ Hlen) as (a & b & c & d & ->).
  apply all_chars4 in Hall as (_ & _ & _ & Hd%Hcls).
  destruct (final_is_Some post Hne) as [z Hz].
  pose proof (final_all_chars _ _ _ Hsp Hz) as Hzs.
  assert (final (u +:+ String a (String b (String c (String d "")))) = Some d)
    as Hfd by (by rewrite final_app).
  destruct r as [|n [|??]]; [| |done].
  - rewrite app_nil_r in Heq.
    assert (Some z = Some d) as [= ->]
      by (by rewrite <- Hz, <- Hfd, <- Heq, final_app).
    congruence.
  - simpl in Hend. apply N.eqb_eq in Hend.
    rewrite <- app_assoc in Heq.
    assert (Some z = Some n) as [= ->].
    { rewrite <- Hz, <- (final_app s post Hne), Heq. by rewrite final_app. }
    assert (chop post ≠ "") as Hc.
    { intros E. apply Hnl. rewrite (chop_nil_inv _ _ E Hz). f_equal.
      clear -Hend. revert Hend. each_char n. }
    apply (f_equal chop) in Heq.
    rewrite !chop_app in Heq by done. simpl in Heq. rewrite app_nil_r in Heq.
    destruct (final_is_Some _ Hc) as [y Hy].
    pose proof (final_all_chars _ _ _ (all_chars_chop _ _ Hsp) Hy) as Hys.
    assert (Some y = Some d) as [= ->]
      by (by rewrite <- Hy, <- Hfd, <- Heq, final_app).
    congruence.
Qed.

End NormalizeMore.

Section MoreIdentifiers.
Import Text Regex Notions MoreNotions TextFacts NormalizeFacts NormalizeMore.

(** X6.  On every text that ends in four letters or digits, followed by
    any white space or non-breaking spaces and preceded by anything, lines
    41 and 42 of [ache_only_extract.py] (the same as lines 48 and 50 of
    [ligand_mapping_full.py]) yield these four characters upper-cased. *)
Theorem normalizer_trailing_token (pre tok post : string) :
  String.length tok = 4 ->
  all_chars is_alnum tok = true ->
  all_chars isspace post = true ->
  AcheOnly.extract_pdb_id (AcheOnly.clean_label (pre +:+ tok +:+ post))
  = Some (upper tok)
  /\ MappingFull.extract_pdb_id (MappingFull.clean_label (pre +:+ tok +:+ post))
     = Some (upper tok).
Proof.
  intros Hlen Htok Hpost.
  split; exact (ache_only_trailing_token pre tok post Hlen Htok Hpost).
Qed.

Lemma normalizer_trailing_token_witness :
  AcheOnly.extract_pdb_id
    (AcheOnly.clean_label ("AChE " +:+ "4ey7" +:+ String nbsp " "))
  = Some "4EY7".
Proof.
  apply (normalizer_trailing_token "AChE " "4ey7" (String nbsp " "));
    reflexivity.
Defined.

(** X7.  A code found in an ASCII text by any of the three patterns is
    exactly four characters long and made of digits, capital letters and
    underscores. *)
Theorem found_code_is_four_capitals (label code : string) :
  all_chars is_ascii label = true ->
  AcheOnly.extract_pdb_id label = Some code
  \/ SplitDual.extract_pdb_id label = Some code
  \/ RealLigandLoad.extract_pdb_id label = Some code ->
  String.length code = 4 /\ all_chars code_char code = true.
Proof.
  intros Ha [H|[H|H]].
  - by apply (ache_code_shape label).
  - unfold SplitDual.extract_pdb_id, word4 in H.
    destruct (search _ label) as [g|] eqn:Hg; [|done].
    destruct (found_code_shape _ _ _ _ (fun c H => H) Ha Hg) as (? & ? & _).
    simpl in H. by injection H as <-.
  - unfold RealLigandLoad.extract_pdb_id, RealLigandLoad.alnum4_end in H.
    destruct (search _ label) as [g|] eqn:Hg; [|done].
    destruct (found_code_shape _ _ _ _ alnum_is_word Ha Hg) as (? & ? & _).
    simpl in H. by injection H as <-.
Qed.

Lemma found_code_is_four_capitals_witness :
  String.length "ACHE" = 4 /\ all_chars code_char "ACHE" = true.
Proof.
  apply (found_code_is_four_capitals "AChE 4ey7" "ACHE"); [reflexivity|].
  right. left. reflexivity.
Defined.

(** X8.  The clean-up of [ache_only_extract.py] is idempotent on ASCII
    text: a code it has produced comes out of lines 41 and 42 unchanged. *)
Theorem normalizer_idempotent (raw code : string) :
  all_chars is_ascii raw = true ->
  AcheOnly.extract_pdb_id (AcheOnly.clean_label raw) = Some code ->
  AcheOnly.extract_pdb_id (AcheOnly.clean_label code) = Some code.
Proof.
  intros Ha H.
  destruct (ache_code_shape _ code (all_chars_clean _ _ Ha) H) as [Hlen Hall].
  by apply code_is_fixed.
Qed.


Lemma normalizer_idempotent_witness :
  AcheOnly.extract_pdb_id (AcheOnly.clean_label "4EY7") = Some "4EY7".
Proof.
  apply (normalizer_idempotent " AChE 4ey7 " "4EY7"); reflexivity.
Defined.

(** X9.  The code column of [realligand_mapping.py] and [ligand_mapping.py]
    is filled without any clean-up: a text that ends in four letters or
    digits gives them upper-cased, whatever comes before, but a text that
    ends in white space (other than one final newline) gives the missing
    value. *)
Theorem unstripped_pattern :
  (forall pre tok,
      String.length tok = 4 ->
      all_chars is_alnum tok = true ->
      RealLigandLoad.extract_pdb_id (pre +:+ tok) = Some (upper tok))
  /\ (forall label post,
        all_chars isspace post = true ->
        post ≠ "" ->
        post ≠ String "010" "" ->
        RealLigandLoad.extract_pdb_id (label +:+ post) = None).
Proof.
  split.
  - intros pre tok Hlen Htok.
    destruct (length4_inv _ Hlen) as (a & b & c & d & ->).
    apply all_chars4 in Htok as (Ha & Hb & Hc & Hd).
    unfold RealLigandLoad.extract_pdb_id, RealLigandLoad.alnum4_end.
    by rewrite (four_end_suffix is_alnum pre a b c d alnum_not_newline).
  - intros label post Hsp Hne Hnl.
    unfold RealLigandLoad.extract_pdb_id, RealLigandLoad.alnum4_end.
    by rewrite (four_end_padded is_alnum label post alnum_not_space).
Qed.

Lemma unstripped_pattern_witness :
  RealLigandLoad.extract_pdb_id ("BRD4-BD1 " +:+ "7rui") = Some "7RUI"
  /\ RealLigandLoad.extract_pdb_id ("7rui" +:+ " ") = None.
Proof.
  split.
  - apply (proj1 unstripped_pattern "BRD4-BD1 " "7rui"); reflexivity.
  - apply (proj2 unstripped_pattern "7rui" " "); [reflexivity|done|done].
Defined.

End MoreIdentifiers.

(** * More on the loops over the rows *)

Module DriverMore.
Import Text Py Http Table Notions MoreNotions DriverFacts.

Lemma ache_turn_effects env results row w :
  AcheOnly.turn env results row w
  = (Return (results ++ option_list (kept env row)),
     mkWorld (files w) (requests w ++ [url_of row])
       (stdout w ++ option_list (failure_line env row))).
Proof.
  unfold AcheOnly.turn, try_except, mbind, M_bind, bind, kept, failure_line.
  rewrite fetch_and_walk_run.
  destruct (attempt env (PDB_ID row)) as [wk|e]; simpl; by rewrite !app_nil_r.
Qed.

Lemma ache_loop_effects env rows : forall results w,
  AcheOnly.loop env results rows w
  = (Return (results ++ omap (kept env) rows),
     mkWorld (files w) (requests w ++ (url_of <$> rows))
       (stdout w ++ omap (failure_line env) rows)).
Proof.
  induction rows as [|row rows IH]; intros results w; simpl.
  - unfold ret. rewrite !app_nil_r. by destruct w.
  - unfold mbind, M_bind, bind. rewrite ache_turn_effects, IH. simpl.
    rewrite <- !app_assoc. simpl.
    by destruct (kept env row), (failure_line env row).
Qed.

Lemma full_turn_effects env results row w :
  MappingFull.turn env results row w
  = (Return (results ++ [recorded env row]),
     mkWorld (files w) (requests w ++ [url_of row])
       (stdout w ++ option_list (full_failure_line env row))).
Proof.
  unfold MappingFull.turn, try_except, mbind, M_bind, bind, recorded,
    full_failure_line.
  rewrite fetch_and_walk_run.
  destruct (attempt env (PDB_ID row)) as [wk|e]; simpl; by rewrite ?app_nil_r.
Qed.

Lemma full_loop_effects env rows : forall results w,
  MappingFull.loop env results rows w
  = (Return (results ++ (recorded env <$> rows)),
     mkWorld (files w) (requests w ++ (url_of <$> rows))
       (stdout w ++ omap (full_failure_line env) rows)).
Proof.
  induction rows as [|row rows IH]; intros results w; simpl.
  - unfold ret. rewrite !app_nil_r. by destruct w.
  - unfold mbind, M_bind, bind. rewrite full_turn_effects, IH. simpl.
    rewrite <- !app_assoc. simpl.
    by destruct (full_failure_line env row).
Qed.

Lemma omap_cons_app {A B} (f : A -> option B) x l :
  omap f (x :: l) = option_list (f x) ++ omap f l.
Proof. simpl. by destruct (f x). Qed.

(** Each row is either kept or reported. *)
Lemma kept_or_reported env rows :
  length (omap (kept env) rows) + length (omap (failure_line env) rows)
  = length rows.
Proof.
  induction rows as [|row rows IH]; [done|].
  rewrite !omap_cons_app, !length_app. cbn [length]. rewrite <- IH.
  unfold kept at 1, failure_line at 1.
  destruct (attempt env (PDB_ID row)); simpl; lia.
Qed.

Lemma split_turn_acc env acc row w :
  exists w',
    SplitDual.turn env acc row w
    = (Return (acc.1 ++ filter to_bd2 (option_list (kept env row)),
               acc.2 ++ filter to_ache (option_list (kept env row))), w').
Proof.
  unfold SplitDual.turn, try_except, mbind, M_bind, bind, kept.
  rewrite fetch_and_walk_run.
  destruct (attempt env (PDB_ID row)) as [wk|e]; simpl.
  - eexists. unfold ret. f_equal. unfold SplitDual.route, to_ache, to_bd2.
    rewrite !filter_cons, !filter_nil.
    destruct (contains "bd2" _); simpl; [by rewrite app_nil_r|].
    destruct (contains "ache" _); simpl; [by rewrite app_nil_r|].
    rewrite !app_nil_r. by destruct acc.
  - eexists. rewrite !filter_nil, !app_nil_r. by destruct acc.
Qed.

Lemma split_loop_acc env rows : forall acc w,
  exists w',
    SplitDual.loop env acc rows w
    = (Return (acc.1 ++ filter to_bd2 (omap (kept env) rows),
               acc.2 ++ filter to_ache (omap (kept env) rows)), w').
Proof.
  induction rows as [|row rows IH]; intros acc w.
  - exists w. simpl. unfold ret. rewrite !filter_nil, !app_nil_r. by destruct acc.
  - cbn [SplitDual.loop]. unfold mbind, M_bind, bind.
    destruct (split_turn_acc env acc row w) as [w1 ->].
    destruct (IH (acc.1 ++ filter to_bd2 (option_list (kept env row)),
                  acc.2 ++ filter to_ache (option_list (kept env row))) w1)
      as [w2 ->].
    exists w2. cbn [fst snd]. by rewrite omap_cons_app, !filter_app, !app_assoc.
Qed.

Lemma dual_turn_run env results row w :
  exists w',
    ExtractDual.turn env results row w
    = (Return (results ++ [recorded_dual env row]), w').
Proof.
  unfold ExtractDual.turn, try_except, mbind, M_bind, bind, recorded_dual.
  rewrite fetch_and_walk_run.
  destruct (attempt env (PDB_ID row)) as [wk|e]; simpl; by eexists.
Qed.

Lemma dual_loop_run env rows : forall results w,
  exists w',
    ExtractDual.loop env results rows w
    = (Return (results ++ (recorded_dual env <$> rows)), w').
Proof.
  induction rows as [|row rows IH]; intros results w; simpl.
  - exists w. unfold ret. by rewrite app_nil_r.
  - unfold mbind, M_bind, bind.
    destruct (dual_turn_run env results row w) as [w1 ->].
    destruct (IH (results ++ [recorded_dual env row]) w1) as [w2 ->].
    exists w2. by rewrite <- app_assoc.
Qed.

Lemma dual_turn_effects env results row w :
  ExtractDual.turn env results row w
  = (Return (results ++ [recorded_dual env row]),
     mkWorld (files w) (requests w ++ [url_of row])
       (stdout w ++ option_list (failure_line env row))).
Proof.
  unfold ExtractDual.turn, try_except, mbind, M_bind, bind, recorded_dual,
    failure_line.
  rewrite fetch_and_walk_run.
  destruct (attempt env (PDB_ID row)) as [wk|e]; simpl; by rewrite ?app_nil_r.
Qed.

Lemma dual_loop_effects env rows : forall results w,
  ExtractDual.loop env results rows w
  = (Return (results ++ (recorded_dual env <$> rows)),
     mkWorld (files w) (requests w ++ (url_of <$> rows))
       (stdout w ++ omap (failure_line env) rows)).
Proof.
  induction rows as [|row rows IH]; intros results w; simpl.
  - unfold ret. rewrite !app_nil_r. by destruct w.
  - unfold mbind, M_bind, bind. rewrite dual_turn_effects, IH. simpl.
    rewrite <- !app_assoc. simpl.
    by destruct (failure_line env row).
Qed.

(** The two ways [ache_only_extract.py] can go from line 39 on. *)
Lemma ache_script_run env pd table w :
  files w !! "data" = None ->
  AcheOnly.script env pd table w
  = (Return (omap (kept env) (AcheOnly.load table)),
     mkWorld
       (<["data/ligand_mapping_ache.csv"
            := to_csv_text pd (omap (kept env) (AcheOnly.load table))]> (files w))
       (requests w ++ (url_of <$> AcheOnly.load table))
       (stdout w ++ omap (failure_line env) (AcheOnly.load table)
          ++ [saved_line pd (omap (kept env) (AcheOnly.load table));
              String "010" "Preview of first 10 rows (ACHE):";
              head_text pd (omap (kept env) (AcheOnly.load table))])).
Proof.
  intros Hdata. unfold AcheOnly.script, mbind, M_bind, bind, mkdir.
  change (Path.str (Path.parent AcheOnly.OUTPUT_PATH)) with "data".
  change (Path.str AcheOnly.OUTPUT_PATH) with "data/ligand_mapping_ache.csv".
  rewrite bool_decide_false by (rewrite Hdata; by intros [? ?]).
  rewrite ache_loop_effects. simpl. unfold ret. by rewrite <- !app_assoc.
Qed.

Lemma ache_script_stop env pd table w :
  is_Some (files w !! "data") ->
  AcheOnly.script env pd table w = (Raise "[Errno 17] File exists: 'data'", w).
Proof.
  intros Hdata. unfold AcheOnly.script, mbind, M_bind, bind, mkdir.
  change (Path.str (Path.parent AcheOnly.OUTPUT_PATH)) with "data".
  by rewrite bool_decide_true.
Qed.

(** The same for [ligand_mapping_full.py] from line 46 on. *)
Lemma full_script_run env pd table w :
  files w !! "data" = None ->
  MappingFull.script env pd table w
  = (Return (recorded env <$> MappingFull.load table),
     mkWorld
       (<["data/ligand_mapping_full.csv"
            := to_csv_text pd (recorded env <$> MappingFull.load table)]> (files w))
       (requests w ++ (url_of <$> MappingFull.load table))
       (stdout w ++ omap (full_failure_line env) (MappingFull.load table)
          ++ [saved_line pd (recorded env <$> MappingFull.load table);
              String "010" "Preview of first 10 rows:";
              head_text pd (recorded env <$> MappingFull.load table)])).
Proof.
  intros Hdata. unfold MappingFull.script, mbind, M_bind, bind, mkdir.
  change (Path.str (Path.parent MappingFull.output_path)) with "data".
  change (Path.str MappingFull.output_path) with "data/ligand_mapping_full.csv".
  rewrite bool_decide_false by (rewrite Hdata; by intros [? ?]).
  rewrite full_loop_effects. simpl. unfold ret. by rewrite <- !app_assoc.
Qed.

Lemma full_script_stop env pd table w :
  is_Some (files w !! "data") ->
  MappingFull.script env pd table w = (Raise "[Errno 17] File exists: 'data'", w).
Proof.
  intros Hdata. unfold MappingFull.script, mbind, M_bind, bind, mkdir.
  change (Path.str (Path.parent MappingFull.output_path)) with "data".
  by rewrite bool_decide_true.
Qed.

(** One sheet of [extract_ligands_dual.py] that has rows. *)
Lemma dual_sheet_run env pd sheet_name output_file rows w :
  rows ≠ [] ->
  ExtractDual.sheet env pd sheet_name output_file rows w
  = (Return (ExtractDual.drop_failed (recorded_dual env <$> rows)),
     mkWorld
       (<[Path.str (ExtractDual.output_path output_file)
            := to_csv_text pd (ExtractDual.drop_failed (recorded_dual env <$> rows))]>
          (files w))
       (requests w ++ (url_of <$> rows))
       (stdout w ++ omap (failure_line env) rows
          ++ [saved_line pd (ExtractDual.drop_failed (recorded_dual env <$> rows));
              String "010" ("Preview of first 10 rows (" +:+ sheet_name +:+ "):");
              head_text pd (ExtractDual.drop_failed (recorded_dual env <$> rows))])).
Proof.
  intros Hrows. unfold ExtractDual.sheet, mbind, M_bind, bind.
  rewrite dual_loop_effects. cbn [app].
  destruct rows as [|row rows]; [done|]. cbn [fmap list_fmap ExtractDual.result_df].
  simpl. unfold ret. by rewrite <- !app_assoc.
Qed.

(** A walk that comes out of the [try] block is the walk of a structure. *)
Lemma attempt_Return env pdb_id wk :
  attempt env pdb_id = Return wk -> exists s, wk = Extract.walk s.
Proof.
  unfold attempt. destruct (remote env _); [|done].
  destruct (bool_decide _); [done|].
  destruct (get_structure env _ _) as [s|]; [|done].
  intros [= <-]. by exists s.
Qed.

Lemma test_turn_run env results pdb_id w :
  exists w',
    ResidueTest.turn env results pdb_id w
    = (Return (results ++ [test_row env pdb_id]), w').
Proof.
  unfold ResidueTest.turn, try_except, mbind, M_bind, bind, test_row.
  rewrite fetch_and_walk_run.
  destruct (attempt env (Some pdb_id)) as [wk|e]; simpl; by eexists.
Qed.

Lemma test_loop_run env ids : forall results w,
  exists w',
    ResidueTest.loop env results ids w
    = (Return (results ++ (test_row env <$> ids)), w').
Proof.
  induction ids as [|i ids IH]; intros results w; simpl.
  - exists w. unfold ret. by rewrite app_nil_r.
  - unfold mbind, M_bind, bind.
    destruct (test_turn_run env results i w) as [w1 ->].
    destruct (IH (results ++ [test_row env i]) w1) as [w2 ->].
    exists w2. by rewrite <- app_assoc.
Qed.

End DriverMore.

Section MoreBatch.
Import Text Py Http Table Scenarios MoreScenarios Notions MoreNotions.
Import DriverFacts DriverMore LigandFacts.

(** X10.  For a frame whose labels hold neither the micro sign nor the y
    with diaeresis.  Where [data] is not a regular file,
    [ache_only_extract.py] and [ligand_mapping_full.py] send exactly one
    request for every row of the frame, in row order and also for a row
    without code, and each writes one file, its output table, after the
    loop: no downloaded text is stored.  [ache_only_extract.py] prints one
    line for every row it does not keep, so each input row is either in
    the table or on the console; [ligand_mapping_full.py] prints one line
    for every row it records as failed and has one row for every input
    row.  Where [data] is a regular file both scripts stop at the line
    that makes the folder: no request is sent and nothing is written. *)
Theorem scripts_effects (env : Outside) (pd pd' : Report)
    (table : list Input) (w : World) :
  forallb (fun i => all_chars capital_in_range (in_pdb_id i)) table = true ->
  (files w !! "data" = None ->
     AcheOnly.script env pd table w
     = (Return (omap (kept env) (AcheOnly.load table)),
        mkWorld
          (<["data/ligand_mapping_ache.csv"
               := to_csv_text pd (omap (kept env) (AcheOnly.load table))]> (files w))
          (requests w ++ (url_of <$> AcheOnly.load table))
          (stdout w ++ omap (failure_line env) (AcheOnly.load table)
             ++ [saved_line pd (omap (kept env) (AcheOnly.load table));
                 String "010" "Preview of first 10 rows (ACHE):";
                 head_text pd (omap (kept env) (AcheOnly.load table))]))
     /\ MappingFull.script env pd' table w
        = (Return (recorded env <$> MappingFull.load table),
           mkWorld
             (<["data/ligand_mapping_full.csv"
                  := to_csv_text pd' (recorded env <$> MappingFull.load table)]>
                (files w))
             (requests w ++ (url_of <$> MappingFull.load table))
             (stdout w ++ omap (full_failure_line env) (MappingFull.load table)
                ++ [saved_line pd' (recorded env <$> MappingFull.load table);
                    String "010" "Preview of first 10 rows:";
                    head_text pd' (recorded env <$> MappingFull.load table)])))
  /\ (is_Some (files w !! "data") ->
        AcheOnly.script env pd table w
        = (Raise "[Errno 17] File exists: 'data'", w)
        /\ MappingFull.script env pd' table w
           = (Raise "[Errno 17] File exists: 'data'", w))
  /\ length (omap (kept env) (AcheOnly.load table))
     + length (omap (failure_line env) (AcheOnly.load table))
     = length table
  /\ length (url_of <$> AcheOnly.load table) = length table
  /\ length (recorded env <$> MappingFull.load table) = length table.
Proof.
  intros _. split_and!.
  - intros Hdata. split; [by apply ache_script_run|by apply full_script_run].
  - intros Hdata. split; [by apply ache_script_stop|by apply full_script_stop].
  - rewrite kept_or_reported. unfold AcheOnly.load. by rewrite length_fmap.
  - unfold AcheOnly.load. by rewrite !length_fmap.
  - unfold MappingFull.load. by rewrite !length_fmap.
Qed.

Lemma scripts_effects_witness :
  AcheOnly.script one_entry toy_report two_labels empty_world
  = (Return [mkResult "AChE_001" "4ey7" (Some "4EY7") "7QZ" "7QZ" "7QZ, ALA, HOH"],
     mkWorld {[ "data/ligand_mapping_ache.csv" := "7QZ" ]}
       [ "https://files.rcsb.org/download/4EY7.pdb";
         "https://files.rcsb.org/download/1XYZ.pdb" ]
       [ "Skipping 1XYZ due to error: 404 Client Error: Not Found";
         "saved"; String "010" "Preview of first 10 rows (ACHE):"; "head" ]).
Proof.
  destruct (proj1 (scripts_effects one_entry toy_report toy_report two_labels
                     empty_world eq_refl) eq_refl) as [-> _].
  by vm_compute.
Defined.

(** X11.  [extract_ligands_split_dual.py] never stops at a failed row and
    ends with two tables: the results of the successful rows whose id
    holds bd2 in any letter case, and the results of those whose id holds
    ache but not bd2, both in row order.  No result is in both tables, and
    a result whose id holds neither is in none. *)
Theorem split_dual_routing (env : Outside) (table : list Input) (w : World) :
  (exists w',
      SplitDual.main env table w
      = (Return (filter to_bd2 (omap (kept env) (SplitDual.load table)),
                 filter to_ache (omap (kept env) (SplitDual.load table))), w'))
  /\ (forall r, to_bd2 r = true -> to_ache r = false)
  /\ (forall r, r ∈ omap (kept env) (SplitDual.load table) ->
        contains "bd2" (lower (res_unique_id r)) = false ->
        contains "ache" (lower (res_unique_id r)) = false ->
        (r ∉ filter to_bd2 (omap (kept env) (SplitDual.load table)))
        /\ (r ∉ filter to_ache (omap (kept env) (SplitDual.load table)))).
Proof.
  split_and!.
  - unfold SplitDual.main.
    destruct (split_loop_acc env (SplitDual.load table) ([], []) w) as [w' ->].
    by exists w'.
  - intros r Hr. unfold to_ache. by rewrite Hr.
  - intros r _ Hb Ha. split; intros [Hp _]%list_elem_of_filter.
    + unfold to_bd2 in Hp. by rewrite Hb in Hp.
    + unfold to_ache in Hp. rewrite Ha, andb_false_r in Hp. done.
Qed.

Lemma split_dual_routing_witness :
  to_ache (mkResult "BD2_ache_7" "4EY7" (Some "4EY7") "E20" "E20" "E20") = false.
Proof.
  apply (proj1 (proj2 (split_dual_routing offline [] empty_world))).
  reflexivity.
Defined.

(** X12.  For a sheet with rows, [extract_ligands_dual.py] sends one
    request for every row and saves, under the file name of the sheet in
    [data], the rows whose ligand column is neither None nor N/A, in row
    order: each saved row comes from a row whose download and parse
    succeeded and whose structure has at least one ligand candidate, and
    no row of a failed download is saved.  For a sheet without rows the
    frame of results has no column: the script stops with a key error for
    the ligand column, and nothing is requested or saved. *)
Theorem dual_sheet_saved (env : Outside) (pd : Report)
    (sheet_name output_file : string) (rows : list Row) (w : World) :
  (rows ≠ [] ->
     ExtractDual.sheet env pd sheet_name output_file rows w
     = (Return (ExtractDual.drop_failed (recorded_dual env <$> rows)),
        mkWorld
          (<[Path.str (ExtractDual.output_path output_file)
               := to_csv_text pd
                    (ExtractDual.drop_failed (recorded_dual env <$> rows))]>
             (files w))
          (requests w ++ (url_of <$> rows))
          (stdout w ++ omap (failure_line env) rows
             ++ [saved_line pd
                   (ExtractDual.drop_failed (recorded_dual env <$> rows));
                 String "010"
                   ("Preview of first 10 rows (" +:+ sheet_name +:+ "):");
                 head_text pd
                   (ExtractDual.drop_failed (recorded_dual env <$> rows))])))
  /\ ExtractDual.sheet env pd sheet_name output_file [] w
     = (Raise "'Ligand(s)'", w)
  /\ (forall r, r ∈ ExtractDual.drop_failed (recorded_dual env <$> rows) ->
        exists row s,
          row ∈ rows
          /\ attempt env (PDB_ID row) = Return (Extract.walk s)
          /\ r = ExtractDual.result_of row (Extract.walk s)
          /\ Extract.ligand_candidates (Extract.walk s) ≠ ∅)
  /\ (forall row e,
        attempt env (PDB_ID row) = Raise e ->
        recorded_dual env row ∉ ExtractDual.drop_failed (recorded_dual env <$> rows)).
Proof.
  split_and!.
  - by apply dual_sheet_run.
  - by destruct w.
  - intros r [Hlig Hin]%list_elem_of_filter.
    apply list_elem_of_fmap in Hin as (row & -> & Hrow).
    unfold recorded_dual in *.
    destruct (attempt env (PDB_ID row)) as [wk|e] eqn:Ha.
    + destruct (attempt_Return _ _ _ Ha) as [s ->].
      exists row, s. split_and!; [done..|].
      intros Hempty. apply Hlig. simpl.
      apply ligand_candidates_empty in Hempty.
      rewrite (most_common_ligand_none _ (ExtractFacts.walk_counts_ligands s) Hempty).
      left.
    + exfalso. apply Hlig. simpl. right. left.
  - intros row e He [Hlig _]%list_elem_of_filter.
    apply Hlig. unfold recorded_dual. rewrite He. simpl. right. left.
Qed.

Lemma dual_sheet_saved_witness :
  ExtractDual.sheet one_entry toy_report "AChE" "ligand_mapping_ache_cleaned.csv"
    [mkRow "AChE_001" "4EY7" (Some "4EY7"); mkRow "AChE_002" "1XYZ" (Some "1XYZ")]
    empty_world
  = (Return [mkResult "AChE_001" "4EY7" (Some "4EY7") "7QZ" "7QZ" "7QZ, ALA, HOH"],
     mkWorld {[ "data/ligand_mapping_ache_cleaned.csv" := "7QZ" ]}
       [ "https://files.rcsb.org/download/4EY7.pdb";
         "https://files.rcsb.org/download/1XYZ.pdb" ]
       [ "Skipping 1XYZ due to error: 404 Client Error: Not Found";
         "saved"; String "010" "Preview of first 10 rows (AChE):"; "head" ]).
Proof.
  rewrite (proj1 (dual_sheet_saved one_entry toy_report "AChE"
                    "ligand_mapping_ache_cleaned.csv"
                    [mkRow "AChE_001" "4EY7" (Some "4EY7");
                     mkRow "AChE_002" "1XYZ" (Some "1XYZ")] empty_world))
    by done.
  by vm_compute.
Defined.

(** X13.  [ligand_residue_test.py] ends with one row for every code of its
    list, in list order and each under its own code, whether the download
    succeeded or not; the loop never stops at a failure. *)
Theorem residue_test_rows (env : Outside) (ids : list string) (w : World) :
  (exists w',
      ResidueTest.loop env [] ids w = (Return (test_row env <$> ids), w'))
  /\ ResidueTest.t_pdb_id <$> (test_row env <$> ids) = ids
  /\ (forall pdb_id e,
        attempt env (Some pdb_id) = Raise e ->
        test_row env pdb_id
        = ResidueTest.mkTestRow pdb_id ("Error: " +:+ e) "N/A" "N/A").
Proof.
  split_and!.
  - destruct (test_loop_run env ids [] w) as [w' ->]. by exists w'.
  - rewrite <- list_fmap_compose. rewrite <- (list_fmap_id ids) at 2.
    apply list_fmap_ext. intros _ pdb_id _. unfold test_row. simpl.
    by destruct (attempt env (Some pdb_id)).
  - intros pdb_id e He. unfold test_row. by rewrite He.
Qed.

Lemma residue_test_rows_witness :
  test_row offline "7RUI"
  = ResidueTest.mkTestRow "7RUI" "Error: connection refused" "N/A" "N/A".
Proof.
  apply (proj2 (proj2 (residue_test_rows offline ResidueTest.pdb_ids empty_world))).
  reflexivity.
Defined.

End MoreBatch.

Section MoreDownload.
Import Text Py Http Cache Scenarios.

(** X14.  Whatever happens in step 4 of [data/final_ligand_extraction.py],
    a file that is in the folder stays there with its content: the step
    never overwrites or removes a file.  It sends at most one request and
    prints exactly one line. *)
Theorem cache_keeps_files (env : Outside) (pdb_id : string) (w : World) :
  (forall path content,
      files w !! path = Some content ->
      files (ensure_pdb env pdb_id w).2 !! path = Some content)
  /\ (requests (ensure_pdb env pdb_id w).2 = requests w
      \/ requests (ensure_pdb env pdb_id w).2 = requests w ++ [download_url pdb_id])
  /\ length (stdout (ensure_pdb env pdb_id w).2) = S (length (stdout w)).
Proof.
  destruct (files w !! pdb_local_path pdb_id) as [cached|] eqn:Hc.
  - rewrite ensure_pdb_hit by (by eexists). simpl.
    split_and!; [done|by left|]. rewrite length_app. simpl. lia.
  - rewrite (ensure_pdb_miss _ _ _ Hc). cbn zeta.
    destruct (remote env _) as [response|e]; [destruct (bool_decide _)|]; simpl;
      (split_and!; [|by right|rewrite length_app; simpl; lia]); try done.
    intros path content Hp. rewrite lookup_insert_ne; [done|]. congruence.
Qed.

Lemma cache_keeps_files_witness :
  files (ensure_pdb one_entry "4EY7" cached_world).2
    !! "/Users/chinazoemeh/HopeMScP/data/pdb_files/7RUI.pdb"
  = Some "HEADER 7RUI".
Proof.
  apply (proj1 (cache_keeps_files one_entry "4EY7" cached_world)).
  by vm_compute.
Defined.

End MoreDownload.

(** * The cache and the scripts without one *)

Module PathFacts.
Import Text Regex Path Notions MoreNotions TextFacts NormalizeFacts NormalizeMore.

Lemma split_no_sep s : no_sep s = true -> split s = [s].
Proof.
  unfold no_sep. induction s as [|c s IH]; [done|]. cbn [all_chars split].
  intros [Hc Hs]%andb_true_iff. apply negb_true_iff in Hc.
  by rewrite Hc, IH.
Qed.

Lemma splitroot_no_sep s : no_sep s = true -> splitroot s = ("", s).
Proof.
  unfold no_sep. destruct s as [|c s]; [done|]. cbn [all_chars splitroot].
  intros [Hc _]%andb_true_iff. apply negb_true_iff in Hc. by rewrite Hc.
Qed.

Lemma app_inv_head p a b : p +:+ a = p +:+ b -> a = b.
Proof.
  induction p as [|c p IH]; [done|]. rewrite !app_cons. intros [= H]. by apply IH.
Qed.

Lemma app_inv_tail a : forall b t, a +:+ t = b +:+ t -> a = b.
Proof.
  induction a as [|c a IH]; intros [|d b] t H.
  - done.
  - apply (f_equal String.length) in H. rewrite !length_app in H. simpl in H. lia.
  - apply (f_equal String.length) in H. rewrite !length_app in H. simpl in H. lia.
  - rewrite !app_cons in H. injection H as -> H. f_equal. by apply (IH b t).
Qed.

Lemma file_name_is_part pdb_id : is_part (pdb_id +:+ ".pdb") = true.
Proof.
  unfold is_part.
  assert (4 ≤ String.length (pdb_id +:+ ".pdb")) as Hlen
    by (rewrite length_app; simpl; lia).
  destruct (String.eqb_spec (pdb_id +:+ ".pdb") "") as [E|_];
    [rewrite E in Hlen; simpl in Hlen; lia|].
  destruct (String.eqb_spec (pdb_id +:+ ".pdb") ".") as [E|_];
    [rewrite E in Hlen; simpl in Hlen; lia|done].
Qed.

(** The file of a code without slash lies in the download folder, under
    the code followed by the extension. *)
Lemma local_path_of_part pdb_id :
  no_sep pdb_id = true ->
  Cache.pdb_local_path pdb_id
  = "/Users/chinazoemeh/HopeMScP/data/pdb_files/" +:+ pdb_id +:+ ".pdb".
Proof.
  intros Hid.
  assert (no_sep (pdb_id +:+ ".pdb") = true) as Hname
    by (unfold no_sep in *; by rewrite all_chars_app, Hid).
  unfold Cache.pdb_local_path, joinpath, parse.
  rewrite (splitroot_no_sep _ Hname), (split_no_sep _ Hname).
  cbn [List.filter]. rewrite file_name_is_part. reflexivity.
Qed.

Lemma local_path_inj a b :
  no_sep a = true -> no_sep b = true ->
  Cache.pdb_local_path a = Cache.pdb_local_path b -> a = b.
Proof.
  intros Ha Hb. rewrite !local_path_of_part by done.
  intros H%app_inv_head. by apply app_inv_tail in H.
Qed.

Lemma word_upper_word c : is_word c = true -> is_word (upper_char c) = true.
Proof. each_char c. Qed.

Lemma word_not_sep c : is_word c = true -> negb (is_sep c) = true.
Proof. each_char c. Qed.

Lemma all_chars_upper_word s :
  all_chars is_word s = true -> all_chars is_word (upper s) = true.
Proof.
  induction s as [|c s IH]; [done|]. cbn [all_chars upper].
  intros [Hc Hs]%andb_true_iff. destruct (N.eqb (code c) 223).
  - cbn [all_chars]. by rewrite IH.
  - cbn [all_chars]. by rewrite word_upper_word, IH.
Qed.

(** A code that lines 41 and 42 of [ache_only_extract.py] yield holds no
    slash. *)
Lemma found_code_no_sep label code :
  AcheOnly.extract_pdb_id label = Some code -> no_sep code = true.
Proof.
  unfold AcheOnly.extract_pdb_id, word4_end. intros H.
  destruct (search _ label) as [g|] eqn:Hg; [|done].
  apply search_four_Some in Hg as (_ & _ & _ & _ & Hw & _).
  injection H as <-. unfold no_sep.
  apply (all_chars_impl is_word); [apply word_not_sep|].
  unfold strip. by apply all_chars_rstrip, all_chars_lstrip, all_chars_upper_word.
Qed.

End PathFacts.

Section Cached.
Import Text Py Http Table Cache Scenarios MoreScenarios Notions MoreNotions.
Import DriverMore PathFacts.

(** The file of 4EY7 is in the download folder, and [ache_only_extract.py]
    requests the entry all the same; and after a run that starts without
    files and fetches the entry, the one file is the output table: the
    fetched text is in no file. *)
Lemma C8_counterexample :
  files cached_4ey7_world !! pdb_local_path "4EY7" = Some "HEADER 4EY7"
  /\ requests (AcheOnly.script one_entry toy_report [mkInput "AChE_001" "4EY7"]
                 cached_4ey7_world).2
     = ["https://files.rcsb.org/download/4EY7.pdb"]
  /\ files (AcheOnly.script one_entry toy_report [mkInput "AChE_001" "4EY7"]
              empty_world).2
     = {[ "data/ligand_mapping_ache.csv" := "7QZ" ]}.
Proof. split_and!; by vm_compute. Qed.

(** C8.  Step 4 of [data/final_ligand_extraction.py]: when the file of a
    code is in the download folder the step sends no request, leaves every
    file as it is and hands out the path of the cached copy; when the file
    is absent it sends exactly one request, and for a code without slash a
    successful answer is written to the path of that code and to no other,
    after which processing the same code again sends no request.  The path
    of a code without slash is the download folder, the code and the
    extension, so two such codes have the same file only when they are the
    same code; the codes the normalizer yields are without slash.
    [ache_only_extract.py] has no cache: where it gets to its loop it
    sends a request for every row, whatever files there are, and the one
    file it writes is its output table. *)
Theorem C8_cache_by_code (env : Outside) (pdb_id : string) (w : World) :
  (forall cached,
      files w !! pdb_local_path pdb_id = Some cached ->
      (ensure_pdb env pdb_id w).1 = Return (pdb_local_path pdb_id)
      /\ requests (ensure_pdb env pdb_id w).2 = requests w
      /\ files (ensure_pdb env pdb_id w).2 = files w
      /\ files (ensure_pdb env pdb_id w).2 !! pdb_local_path pdb_id = Some cached)
  /\ (files w !! pdb_local_path pdb_id = None ->
        requests (ensure_pdb env pdb_id w).2 = requests w ++ [download_url pdb_id]
        /\ (Path.no_sep pdb_id = true ->
            forall response,
              remote env (download_url pdb_id) = Return response ->
              ¬ (400 ≤ status_code response < 600) ->
              (ensure_pdb env pdb_id w).1 = Return (pdb_local_path pdb_id)
              /\ files (ensure_pdb env pdb_id w).2
                 = <[pdb_local_path pdb_id := text response]> (files w)
              /\ requests (ensure_pdb env pdb_id (ensure_pdb env pdb_id w).2).2
                 = requests (ensure_pdb env pdb_id w).2)
        /\ ((forall response,
               remote env (download_url pdb_id) = Return response ->
               400 ≤ status_code response < 600) ->
            files (ensure_pdb env pdb_id w).2 = files w))
  /\ (Path.no_sep pdb_id = true ->
        pdb_local_path pdb_id
        = "/Users/chinazoemeh/HopeMScP/data/pdb_files/" +:+ pdb_id +:+ ".pdb"
        /\ (forall other,
              Path.no_sep other = true ->
              pdb_local_path other = pdb_local_path pdb_id -> other = pdb_id))
  /\ (forall label,
        AcheOnly.extract_pdb_id label = Some pdb_id -> Path.no_sep pdb_id = true)
  /\ (forall pd table,
        files w !! "data" = None ->
        requests (AcheOnly.script env pd table w).2
        = requests w ++ (url_of <$> AcheOnly.load table)
        /\ length (url_of <$> AcheOnly.load table) = length table
        /\ (forall path,
              path ≠ "data/ligand_mapping_ache.csv" ->
              files (AcheOnly.script env pd table w).2 !! path = files w !! path)).
Proof.
  split_and!.
  - intros cached Hc. rewrite ensure_pdb_hit by (by eexists). done.
  - intros Hnone. rewrite (ensure_pdb_miss _ _ _ Hnone). cbn zeta.
    split_and!.
    + destruct (remote env _) as [response|e]; [|done].
      by destruct (bool_decide _).
    + intros _ response -> Hok. rewrite bool_decide_false by done.
      split_and!; [done|done|].
      rewrite ensure_pdb_hit; [done|]. simpl. rewrite lookup_insert_eq. by eexists.
    + intros Hbad. destruct (remote env _) as [response|e]; [|done].
      by rewrite bool_decide_true by (by apply Hbad).
  - intros Hid. split; [by apply local_path_of_part|].
    intros other Ho. by apply local_path_inj.
  - intros label. apply found_code_no_sep.
  - intros pd table Hdata. rewrite ache_script_run by done. simpl.
    split_and!; [done|unfold AcheOnly.load; by rewrite !length_fmap|].
    intros path Hp. by rewrite lookup_insert_ne.
Qed.

Lemma C8_cache_by_code_witness :
  ((ensure_pdb offline "7RUI" cached_world).1 = Return (pdb_local_path "7RUI")
   /\ requests (ensure_pdb offline "7RUI" cached_world).2 = []
   /\ files (ensure_pdb offline "7RUI" cached_world).2 = files cached_world
   /\ files (ensure_pdb offline "7RUI" cached_world).2 !! pdb_local_path "7RUI"
      = Some "HEADER 7RUI")
  /\ requests (ensure_pdb one_entry "4EY7" cached_world).2
     = ["https://files.rcsb.org/download/4EY7.pdb"]
  /\ files (ensure_pdb one_entry "4EY7" cached_world).2
     = <[pdb_local_path "4EY7" := "HEADER 4EY7"]> (files cached_world)
  /\ pdb_local_path "7RUI"
     = "/Users/chinazoemeh/HopeMScP/data/pdb_files/" +:+ "7RUI" +:+ ".pdb"
  /\ Path.no_sep "4EY7" = true
  /\ requests (AcheOnly.script one_entry toy_report two_labels cached_4ey7_world).2
     = requests cached_4ey7_world ++ (url_of <$> AcheOnly.load two_labels).
Proof.
  split; [|split; [|split; [|split; [|split]]]].
  - apply (proj1 (C8_cache_by_code offline "7RUI" cached_world) "HEADER 7RUI").
    by vm_compute.
  - apply (proj1 (proj2 (C8_cache_by_code one_entry "4EY7" cached_world))).
    by vm_compute.
  - destruct (proj1 (proj2 (C8_cache_by_code one_entry "4EY7" cached_world)))
      as (_ & Hwritten & _); [by vm_compute|].
    apply (Hwritten eq_refl (mkResponse 200 "HEADER 4EY7"));
      [reflexivity|simpl; lia].
  - apply (proj1 (proj2 (proj2 (C8_cache_by_code offline "7RUI" cached_world)))).
    reflexivity.
  - apply (proj1 (proj2 (proj2 (proj2
             (C8_cache_by_code offline "4EY7" cached_world)))) " 4ey7").
    reflexivity.
  - apply (proj2 (proj2 (proj2 (proj2
             (C8_cache_by_code one_entry "" cached_4ey7_world)))) toy_report).
    by vm_compute.
Defined.

End Cached.

(** * The line scanner *)

Module ScanFacts.
Import Text Notions MoreNotions TextFacts NormalizeFacts.

Lemma scan_line_elem acc line n :
  n ∈ RealLigand.scan_line acc line <-> n ∈ acc \/ keeps line n.
Proof.
  unfold RealLigand.scan_line, keeps.
  destruct (startswith "HETATM" line); [|naive_solver].
  destruct (String.eqb_spec (strip (slice 17 20 line)) "") as [E|E]; simpl.
  - split; [by left|]. intros [?|(_ & <- & ? & _)]; done.
  - destruct (bool_decide _) eqn:Hb.
    + apply bool_decide_eq_true in Hb. rewrite elem_of_union, elem_of_singleton.
      split; [|naive_solver]. intros [?| ->]; [by left|by right].
    + apply bool_decide_eq_false in Hb. split; [by left|].
      intros [?|(_ & <- & _ & ?)]; done.
Qed.

Lemma scan_fold_elem lines : forall acc n,
  n ∈ foldl RealLigand.scan_line acc lines
  <-> n ∈ acc \/ exists line, line ∈ lines /\ keeps line n.
Proof.
  induction lines as [|l lines IH]; intros acc n; simpl.
  - split; [by left|]. intros [?|(? & []%elem_of_nil & _)]; done.
  - rewrite IH, scan_line_elem. split.
    + intros [[?|?]|(line & ? & ?)]; [by left| |].
      * right. exists l. split; [left|done].
      * right. exists line. split; [by right|done].
    + intros [?|(line & [->|?]%elem_of_cons & ?)].
      * by left; left.
      * by left; right.
      * right. by exists line.
Qed.

Lemma scan_elem lines n :
  n ∈ RealLigand.scan lines <-> exists line, line ∈ lines /\ keeps line n.
Proof. unfold RealLigand.scan. rewrite scan_fold_elem. set_solver. Qed.

Lemma length_lstrip s : String.length (lstrip s) ≤ String.length s.
Proof.
  induction s as [|c s IH]; simpl; [done|].
  destruct (isspace c); simpl; lia.
Qed.

Lemma length_rstrip s : String.length (rstrip s) ≤ String.length s.
Proof.
  induction s as [|c s IH]; simpl; [done|].
  destruct (rstrip s); [destruct (isspace c)|]; simpl in *; lia.
Qed.

Lemma length_take n s : String.length (take n s) ≤ n.
Proof.
  revert s. induction n as [|n IH]; intros [|c s]; simpl; try lia.
  specialize (IH s). lia.
Qed.

Lemma length_strip_slice line : String.length (strip (slice 17 20 line)) ≤ 3.
Proof.
  unfold strip, slice.
  pose proof (length_rstrip (lstrip (take (20 - 17) (drop 17 line)))).
  pose proof (length_lstrip (take (20 - 17) (drop 17 line))).
  pose proof (length_take (20 - 17) (drop 17 line)). lia.
Qed.

End ScanFacts.

Section MoreScan.
Import Text Scenarios Notions MoreNotions ScanFacts.

(** X15.  The scanner of [realligand_mapping.py] keeps a name exactly when
    some line starts with HETATM, has that name as its stripped columns 18
    to 20, the name is not empty and its upper-case form is not excluded.
    Every kept name is one to three characters long, and a name that is
    excluded in any letter case is never kept. *)
Theorem scan_membership (lines : list string) (n : string) :
  (n ∈ RealLigand.scan lines <-> exists line, line ∈ lines /\ keeps line n)
  /\ (n ∈ RealLigand.scan lines ->
      1 ≤ String.length n ≤ 3 /\ upper n ∉ RealLigand.exclude_resnames).
Proof.
  pose proof (scan_elem lines n) as Hiff.
  split; [done|].
  intros (line & _ & _ & <- & Hne & Hex)%Hiff. split; [|done].
  split; [|apply length_strip_slice].
  destruct (strip (slice 17 20 line)); [done|simpl; lia].
Qed.

Lemma scan_membership_witness :
  1 ≤ String.length "WAT" ≤ 3 /\ upper "WAT" ∉ RealLigand.exclude_resnames.
Proof.
  apply (proj2 (scan_membership [wat_line] "WAT")).
  refine (bool_decide_unpack _ _). by vm_compute.
Defined.

(** X16.  The order of the lines plays no part in the scan: the scan of
    two pieces of a file is the union of their scans, and any reordering
    of the lines gives the same ligands. *)
Theorem scan_order :
  (forall l1 l2,
      RealLigand.scan (l1 ++ l2) = RealLigand.scan l1 ∪ RealLigand.scan l2)
  /\ (forall l1 l2, l1 ≡ₚ l2 -> RealLigand.scan l1 = RealLigand.scan l2).
Proof.
  split.
  - intros l1 l2. apply set_eq. intros n.
    rewrite elem_of_union. unfold RealLigand.scan.
    rewrite !scan_fold_elem. setoid_rewrite elem_of_app. set_solver.
  - intros l1 l2 Hp. apply set_eq. intros n. unfold RealLigand.scan.
    rewrite !scan_fold_elem. by setoid_rewrite Hp.
Qed.

Lemma scan_order_witness :
  RealLigand.scan [wat_line; "ATOM"] = RealLigand.scan ["ATOM"; wat_line].
Proof. apply (proj2 scan_order). apply Permutation_swap. Defined.

(** X17.  The column [Ligand_Resname] keeps its placeholder exactly when
    the scan kept no name, which is the case for every file without a
    HETATM line; with more than one name it holds the names in ascending
    order joined by semicolons. *)
Theorem ligand_resname_column :
  (forall X : gset string, RealLigand.Ligand_Resname X = None <-> X = ∅)
  /\ (forall lines,
        (forall line, line ∈ lines -> startswith "HETATM" line = false) ->
        RealLigand.Ligand_Resname (RealLigand.scan lines) = None)
  /\ (forall X : gset string,
        1 < size X ->
        RealLigand.Ligand_Resname X = Some (join ";" (sorted X))).
Proof.
  assert (forall X : gset string, RealLigand.Ligand_Resname X = None <-> X = ∅)
    as Hnone.
  { intros X. unfold RealLigand.Ligand_Resname. split.
    - destruct (decide (size X = 1)) as [H1|H1].
      + apply size_1_elem_of in H1 as [x Hx]. apply leibniz_equiv in Hx.
        subst X. by rewrite elements_singleton.
      + destruct (decide (1 < size X)); [done|]. intros _.
        apply leibniz_equiv, size_empty_iff. lia.
    - intros ->. by rewrite size_empty. }
  split_and!; [done| |].
  - intros lines Hno. apply Hnone. apply set_eq. intros n.
    rewrite scan_elem. split; [|set_solver].
    intros (line & Hin & Hs & _). rewrite (Hno _ Hin) in Hs. done.
  - intros X Hs. unfold RealLigand.Ligand_Resname.
    rewrite decide_False by lia. by rewrite decide_True.
Qed.

End MoreScan.

Section Selection.
Import Text Bio Extract Scenarios Notions MoreNotions.
Import CounterFacts ExtractFacts LigandFacts ScanFacts.

(** A file in which TRS is met before ACT: [realligand_mapping.py] stores
    both names, ACT first, and not the name that was met first. *)
Lemma C9_counterexample :
  RealLigand.scan [trs_line] = {[ "TRS" ]}
  /\ RealLigand.Ligand_Resname (RealLigand.scan [trs_line; act_line])
     = Some "ACT;TRS"
  /\ RealLigand.Ligand_Resname (RealLigand.scan [trs_line; act_line])
     ≠ Some "TRS".
Proof. split_and!; by vm_compute. Qed.

(** C9.  In the scripts that walk the parsed structure the choice is a
    function of the sequence of counted names, so two runs on the same
    residue sequence agree; and among the candidates with the largest
    number of residues the one that is met first in the residue sequence
    is chosen: every candidate met before the chosen one occurs in
    strictly fewer residues.  The line scanner of [realligand_mapping.py]
    keeps no counts and chooses nothing: it stores nothing for no name, a
    single name as it is, and several names all together, in ascending
    order without repetition and joined by semicolons; the names are the
    ones the HETATM lines give, and what is stored is the same for every
    order of the lines. *)
Theorem C9_choice_is_fixed :
  (forall s1 s2,
      candidate_names (residues s1) = candidate_names (residues s2) ->
      most_common_ligand (walk s1) = most_common_ligand (walk s2))
  /\ (forall s,
        candidate_names (residues s) ≠ [] ->
        exists before after,
          candidate_names (residues s)
            = before ++ most_common_ligand (walk s) :: after
          /\ (most_common_ligand (walk s) ∉ before)
          /\ (forall c, c ∈ before ->
                occurrences c s < occurrences (most_common_ligand (walk s)) s)
          /\ (forall c, c ∈ candidate_names (residues s) ->
                occurrences c s ≤ occurrences (most_common_ligand (walk s)) s))
  /\ RealLigand.Ligand_Resname ∅ = None
  /\ (forall x, RealLigand.Ligand_Resname {[ x ]} = Some x)
  /\ (forall X : gset string,
        1 < size X ->
        RealLigand.Ligand_Resname X = Some (join ";" (sorted X))
        /\ Sorted String.le (sorted X)
        /\ NoDup (sorted X)
        /\ (forall n, n ∈ sorted X <-> n ∈ X))
  /\ (forall lines n,
        n ∈ sorted (RealLigand.scan lines)
        <-> exists line, line ∈ lines /\ keeps line n)
  /\ (forall l1 l2,
        l1 ≡ₚ l2 ->
        RealLigand.Ligand_Resname (RealLigand.scan l1)
        = RealLigand.Ligand_Resname (RealLigand.scan l2)).
Proof.
  split_and!.
  - intros s1 s2 E. unfold most_common_ligand.
    by rewrite !walk_counts, E.
  - intros s Hne. rewrite <- walk_ligands in Hne |- *.
    destruct (most_common_ligand_first_max (walk s) (walk_counts_ligands s) Hne)
      as (l1 & l2 & Hsplit & Hnot & Hlt & Hmax).
    exists l1, l2. split_and!; [done|done| |].
    + intros c Hc. rewrite <- !counts_are_occurrences. by apply Hlt.
    + intros c Hc. rewrite <- !counts_are_occurrences. by apply Hmax.
  - done.
  - intros x. unfold RealLigand.Ligand_Resname.
    rewrite decide_True by apply size_singleton. by rewrite elements_singleton.
  - intros X Hs. split_and!.
    + unfold RealLigand.Ligand_Resname.
      rewrite decide_False by lia. by rewrite decide_True.
    + apply (Sorted_merge_sort String.le).
    + unfold sorted. rewrite merge_sort_Permutation. apply NoDup_elements.
    + intros n. unfold sorted. rewrite merge_sort_Permutation.
      apply elem_of_elements.
  - intros lines n. rewrite <- scan_elem. unfold sorted.
    rewrite merge_sort_Permutation. apply elem_of_elements.
  - intros l1 l2 Hp. f_equal. apply set_eq. intros n.
    rewrite !scan_elem. by setoid_rewrite Hp.
Qed.

Lemma C9_choice_is_fixed_witness :
  (exists before after,
      candidate_names (residues scenario_tie)
        = before ++ most_common_ligand (walk scenario_tie) :: after
      /\ (most_common_ligand (walk scenario_tie) ∉ before)
      /\ (forall c, c ∈ before ->
            occurrences c scenario_tie
            < occurrences (most_common_ligand (walk scenario_tie)) scenario_tie)
      /\ (forall c, c ∈ candidate_names (residues scenario_tie) ->
            occurrences c scenario_tie
            ≤ occurrences (most_common_ligand (walk scenario_tie)) scenario_tie))
  /\ RealLigand.Ligand_Resname (RealLigand.scan [trs_line; act_line])
     = Some (join ";" (sorted (RealLigand.scan [trs_line; act_line])))
  /\ RealLigand.Ligand_Resname (RealLigand.scan [act_line; trs_line])
     = RealLigand.Ligand_Resname (RealLigand.scan [trs_line; act_line]).
Proof.
  split_and!.
  - apply (proj1 (proj2 C9_choice_is_fixed) scenario_tie).
    vm_compute. discriminate.
  - apply (proj1 (proj2 (proj2 (proj2 (proj2 C9_choice_is_fixed))))
             (RealLigand.scan [trs_line; act_line])).
    vm_compute. lia.
  - apply (proj2 (proj2 (proj2 (proj2 (proj2 (proj2 C9_choice_is_fixed)))))).
    apply Permutation_swap.
Defined.

End Selection.

Lemma ligand_resname_column_witness :
  RealLigand.Ligand_Resname (RealLigand.scan ["ATOM      1  N   MET A   1"]) = None.
Proof.
  apply (proj1 (proj2 ligand_resname_column)).
  intros line ->%list_elem_of_singleton. reflexivity.
Defined.

(** * The tables read back from CSV files *)

Module CsvFacts.
Import Text Py Csv Notions MoreNotions.

Lemma elem_of_clean_df df r :
  r ∈ Validate.clean_df df <->
  r ∈ df /\ Validate.has_error (c_ligand r) = false
  /\ Validate.not_none (c_ligand r) = true /\ is_Some (c_pdb_id r).
Proof.
  unfold Validate.clean_df. rewrite !list_elem_of_filter. tauto.
Qed.

Lemma flag_all_text rows : forall invalid,
  Forall (fun r => is_Some (c_ligand r)) rows ->
  Validate.flag invalid rows = Return (invalid ++ suspicious rows).
Proof.
  induction rows as [|r rows IH]; intros invalid Hall; simpl.
  - by rewrite app_nil_r.
  - apply Forall_cons in Hall as [[lig Hl] Hall]. rewrite Hl.
    destruct (Validate.is_valid_ligand_name lig); rewrite IH by done; [done|].
    by rewrite <- app_assoc.
Qed.

Lemma flag_gap rows : forall invalid,
  Exists (fun r => c_ligand r = None) rows ->
  Validate.flag invalid rows = Raise "'float' object has no attribute 'strip'".
Proof.
  induction rows as [|r rows IH]; intros invalid Hex; simpl.
  - by apply Exists_nil in Hex.
  - destruct (c_ligand r) as [lig|] eqn:Hl; [|done].
    apply Exists_cons in Hex as [?|Hex]; [congruence|].
    destruct (Validate.is_valid_ligand_name lig); by apply IH.
Qed.

Lemma flag_Return rows invalid out :
  Validate.flag invalid rows = Return out ->
  Forall (fun r => is_Some (c_ligand r)) rows.
Proof.
  intros H. apply Forall_forall. intros r Hr.
  destruct (c_ligand r) eqn:Hl; [by eexists|].
  rewrite flag_gap in H; [done|]. apply Exists_exists. by exists r.
Qed.

Lemma clean_df_idem df : Validate.clean_df (Validate.clean_df df) = Validate.clean_df df.
Proof.
  assert (forall (P : Entry -> Prop) `{!forall x, Decision (P x)} (l : list Entry),
             (forall x, x ∈ l -> P x) -> filter P l = l) as Hid.
  { intros P Hdec l. induction l as [|x l IH]; intros H; [done|].
    rewrite filter_cons, decide_True by (apply H; left).
    rewrite IH; [done|]. intros y Hy. apply H. by right. }
  unfold Validate.clean_df at 1.
  do 3 (rewrite (Hid _ _ (Validate.clean_df df));
        [|intros r Hr; apply elem_of_clean_df in Hr; tauto]).
  done.
Qed.

Lemma all_text_is_text rows :
  Forall (fun r => is_Some (c_ligand r)) rows ->
  Validate.ligand_is_text rows = true.
Proof.
  destruct rows as [|r rows]; [done|]. intros Hall. simpl.
  apply bool_decide_eq_true. left. by apply Forall_cons in Hall as [? _].
Qed.

Lemma contains_prefix p s : contains p (p +:+ s) = true.
Proof.
  assert (startswith p (p +:+ s) = true) as H.
  { induction p as [|c p IH]; [done|]. rewrite NormalizeFacts.app_cons. simpl.
    by rewrite Ascii.eqb_refl. }
  destruct (p +:+ s); simpl in *; by rewrite H.
Qed.

Lemma load_run io path w :
  CleanedOnly.load io path w
  = (match (CleanedOnly.read_csv io path w).1 with
     | Return rows => Return (CleanedOnly.WithColumns rows)
     | Raise _ => Return CleanedOnly.NoColumns
     end, w).
Proof.
  unfold CleanedOnly.load, try_except, mbind, M_bind, bind, CleanedOnly.read_csv.
  destruct (files w !! path) as [content|]; simpl; [|done].
  by destruct (CleanedOnly.parse_csv io content).
Qed.

End CsvFacts.

Section MoreTables.
Import Text Py Csv MoreScenarios Notions MoreNotions CsvFacts.

(** X18.  When [data/validate_ligand_mapping.py] reaches the line that
    saves the table, the saved rows are, in their order, exactly the rows
    of the input whose ligand cell is a text without Error in it and
    different from none in every letter case and whose code is present; so
    no failure row of [ligand_mapping_full.py] is saved.  The reported
    names are the saved rows' names that are not two to four capitals or
    digits, and validating the saved table again changes nothing. *)
Theorem validate_saved (df clean : list Entry)
    (invalid : list (option string * string)) :
  Validate.main df = Return (clean, invalid) ->
  clean `sublist_of` df
  /\ (forall r, r ∈ clean <->
        r ∈ df
        /\ exists lig, c_ligand r = Some lig
                       /\ contains "Error" lig = false
                       /\ lower lig ≠ "none"
                       /\ is_Some (c_pdb_id r))
  /\ (forall r e, r ∈ clean -> c_ligand r ≠ Some ("Error: " +:+ e))
  /\ invalid = suspicious clean
  /\ Validate.main clean = Return (clean, invalid).
Proof.
  unfold Validate.main. destruct (Validate.ligand_is_text df); [|done].
  destruct (Validate.flag [] (Validate.clean_df df)) as [out|] eqn:Hf; [|done].
  intros [= <- <-]. pose proof (flag_Return _ _ _ Hf) as Htext.
  rewrite flag_all_text in Hf by done. injection Hf as <-.
  assert (forall r, r ∈ Validate.clean_df df <->
            r ∈ df
            /\ exists lig, c_ligand r = Some lig
                           /\ contains "Error" lig = false
                           /\ lower lig ≠ "none"
                           /\ is_Some (c_pdb_id r)) as Hiff.
  { intros r. rewrite elem_of_clean_df. split.
    - intros (Hin & He & Hn & Hp). split; [done|].
      destruct (c_ligand r) as [lig|] eqn:Hl.
      + exists lig. split_and!; [done|done| |done]. simpl in Hn.
        intros E. rewrite E in Hn. done.
      + rewrite Forall_forall in Htext.
        assert (r ∈ Validate.clean_df df) as Hr
          by (apply elem_of_clean_df; by rewrite Hl).
        apply Htext in Hr as [? ?]. congruence.
    - intros (Hin & lig & Hl & He & Hn & Hp). rewrite Hl. simpl.
      split_and!; [done|done| |done].
      by destruct (String.eqb_spec (lower lig) "none"). }
  split_and!; [|done| |done|].
  - unfold Validate.clean_df. etrans; [apply sublist_filter|].
    etrans; apply sublist_filter.
  - intros r e (_ & lig & Hl & He & _)%Hiff Heq.
    rewrite Hl in Heq. injection Heq as ->.
    assert (contains "Error" ("Error: " +:+ e) = true) as Ht
      by exact (contains_prefix "Error" (": " +:+ e)).
    congruence.
  - rewrite (all_text_is_text _ Htext), clean_df_idem. by rewrite flag_all_text.
Qed.

Lemma validate_saved_witness :
  [entry (Some "4EY7") (Some "E20")] `sublist_of` mapping_table.
Proof.
  apply (validate_saved mapping_table [entry (Some "4EY7") (Some "E20")] []).
  reflexivity.
Defined.

(** X19.  A row with a code but a missing ligand cell is not removed by
    the filters of [data/validate_ligand_mapping.py]; it stops the script
    with an error before the table is saved. *)
Theorem validate_stops (df : list Entry) (r : Entry) :
  r ∈ df ->
  c_ligand r = None ->
  is_Some (c_pdb_id r) ->
  exists e, Validate.main df = Raise e.
Proof.
  intros Hin Hl Hp.
  assert (r ∈ Validate.clean_df df) as Hr
    by (apply elem_of_clean_df; by rewrite Hl).
  unfold Validate.main. destruct (Validate.ligand_is_text df); [|by eexists].
  rewrite flag_gap; [by eexists|].
  apply Exists_exists. by exists r.
Qed.

Lemma validate_stops_witness :
  exists e, Validate.main table_with_gap = Raise e.
Proof.
  apply (validate_stops table_with_gap (entry (Some "1ACJ") None));
    [right; left|reflexivity|by eexists].
Defined.

(** X20.  When either input file of [cleaned_only_both.py] cannot be read,
    the failure is caught, but the empty frame that takes its place has no
    ligand column: the script ends with a key error and saves neither
    table, also not the one whose input was read. *)
Theorem cleaned_only_load_failure (io : CleanedOnly.CsvIO) (w : World) :
  (exists e, (CleanedOnly.read_csv io CleanedOnly.ache_path w).1 = Raise e)
  \/ (exists e, (CleanedOnly.read_csv io CleanedOnly.bd2_path w).1 = Raise e) ->
  (CleanedOnly.main io w).1 = Raise "'Ligand(s)'"
  /\ files (CleanedOnly.main io w).2 = files w.
Proof.
  intros H. unfold CleanedOnly.main, mbind, M_bind, bind.
  rewrite !load_run.
  destruct ((CleanedOnly.read_csv io CleanedOnly.ache_path w).1) as [a|ea];
    destruct ((CleanedOnly.read_csv io CleanedOnly.bd2_path w).1) as [b|eb];
    simpl; try done.
  destruct H as [[? ?]|[? ?]]; done.
Qed.

Lemma cleaned_only_load_failure_witness :
  (CleanedOnly.main toy_io only_bd2_world).1 = Raise "'Ligand(s)'"
  /\ files (CleanedOnly.main toy_io only_bd2_world).2 = files only_bd2_world.
Proof.
  apply cleaned_only_load_failure. left. eexists. by vm_compute.
Defined.

(** X21.  When both input files of [cleaned_only_both.py] are read, the
    script writes the two output files and nothing else; each holds, in
    their order, exactly the rows of its input whose ligand cell is
    present and is none of None, N/A and the empty text. *)
Theorem cleaned_only_saved (io : CleanedOnly.CsvIO) (w : World)
    (a b : list Entry) :
  (CleanedOnly.read_csv io CleanedOnly.ache_path w).1 = Return a ->
  (CleanedOnly.read_csv io CleanedOnly.bd2_path w).1 = Return b ->
  (CleanedOnly.main io w).1 = Return (valid_rows a, valid_rows b)
  /\ files (CleanedOnly.main io w).2
     = <[CleanedOnly.bd2_output := CleanedOnly.render_csv io (valid_rows b)]>
         (<[CleanedOnly.ache_output := CleanedOnly.render_csv io (valid_rows a)]>
            (files w))
  /\ valid_rows a `sublist_of` a
  /\ (forall r, r ∈ valid_rows a <->
        r ∈ a /\ exists lig, c_ligand r = Some lig
                             /\ lig ∉ CleanedOnly.invalid_entries).
Proof.
  intros Ha Hb.
  assert (CleanedOnly.main io w
          = (Return (valid_rows a, valid_rows b),
             mkWorld
               (<[CleanedOnly.bd2_output := CleanedOnly.render_csv io (valid_rows b)]>
                  (<[CleanedOnly.ache_output
                       := CleanedOnly.render_csv io (valid_rows a)]> (files w)))
               (requests w) (stdout w))) as Hmain.
  { unfold CleanedOnly.main, mbind, M_bind, bind.
    rewrite !load_run, Ha, Hb. done. }
  split_and!.
  - by rewrite Hmain.
  - by rewrite Hmain.
  - unfold valid_rows. etrans; apply sublist_filter.
  - intros r. unfold valid_rows. rewrite !list_elem_of_filter. split.
    + intros ([lig Hl] & Hi & Hin). split; [done|]. exists lig.
      split; [done|]. rewrite Hl in Hi. simpl in Hi.
      by apply bool_decide_eq_false in Hi.
    + intros (Hin & lig & Hl & Hn). rewrite Hl. simpl.
      split_and!; [by eexists| |done]. by apply bool_decide_eq_false.
Qed.

Lemma cleaned_only_saved_witness :
  (CleanedOnly.main toy_io both_world).1
  = Return (valid_rows mapping_table, valid_rows mapping_table).
Proof.
  apply (cleaned_only_saved toy_io both_world mapping_table mapping_table);
    by vm_compute.
Defined.

End MoreTables.
